(** * TSL2561 light-to-digital converter driver: a shallow embedding

    The driver of [tsl2561.c] and [include/tsl2561.h], embedded in Rocq:
    the illuminance estimator [tsl2561_compute_lux] as a function over
    fixed-width integers, and the device session ([tsl2561_init],
    [tsl2561_device_id], [tsl2561_read],
    [tsl2561_set_integration_time_and_gain]) as a state-passing program
    over an abstract SMBus transport that records every transaction. *)

From Stdlib Require Import ZArith List Bool Lia.
Import ListNotations.
Local Open Scope Z_scope.

(** ** Fixed-width unsigned integers

    [uint8_t], [uint16_t] and [uint32_t] values are integers of [Z]; every
    operation whose C type is unsigned is followed by its reduction. *)

Definition u8 (x : Z) : Z := x mod 2 ^ 8.
Definition u16 (x : Z) : Z := x mod 2 ^ 16.
Definition u32 (x : Z) : Z := x mod 2 ^ 32.

(** Unsigned 32-bit division: dividing by zero is undefined behaviour in C,
    rendered as [None]. *)
Definition udiv32 (a b : Z) : option Z :=
  if b =? 0 then None else Some (a / b).

(** ** [esp_err_t] *)

Definition esp_err_t := Z.
Definition ESP_OK : esp_err_t := 0.
Definition ESP_FAIL : esp_err_t := -1.

(** ** Register addresses and command bits *)

Definition REG_CONTROL : Z := 0x00.
Definition REG_TIMING : Z := 0x01.
Definition REG_ID : Z := 0x0A.
Definition REG_DATA0LOW : Z := 0x0C.
Definition REG_DATA1LOW : Z := 0x0E.

Definition SMB_BLOCK : Z := 0x10.
Definition SMB_WORD : Z := 0x20.
Definition SMB_CLEAR : Z := 0x40.
Definition SMB_COMMAND : Z := 0x80.

Definition TSL2561_CONTROL_POWER_UP : Z := 0x03.
Definition TSL2561_CONTROL_POWER_DOWN : Z := 0x00.

(** ** Enumerations of [tsl2561.h]

    A C enumeration is an integer type: a field of such a type can hold a
    value that is none of its enumerators, so the three enumerations are
    integers with named constants. *)

Definition tsl2561_device_type_t := Z.
Definition TSL2561_DEVICE_TYPE_INVALID : tsl2561_device_type_t := 0xF (* 0b1111 *).
Definition TSL2561_DEVICE_TYPE_TSL2560CS : tsl2561_device_type_t := 0x0 (* 0b0000 *).
Definition TSL2561_DEVICE_TYPE_TSL2561CS : tsl2561_device_type_t := 0x1 (* 0b0001 *).
Definition TSL2561_DEVICE_TYPE_TSL2560T_FN_CL : tsl2561_device_type_t := 0x4 (* 0b0100 *).
Definition TSL2561_DEVICE_TYPE_TSL2561T_FN_CL : tsl2561_device_type_t := 0x5 (* 0b0101 *).

Definition tsl2561_integration_time_t := Z.
Definition TSL2561_INTEGRATION_TIME_13MS : tsl2561_integration_time_t := 0x00.
Definition TSL2561_INTEGRATION_TIME_101MS : tsl2561_integration_time_t := 0x01.
Definition TSL2561_INTEGRATION_TIME_402MS : tsl2561_integration_time_t := 0x02.

Definition tsl2561_gain_t := Z.
Definition TSL2561_GAIN_1X : tsl2561_gain_t := 0x00.
Definition TSL2561_GAIN_16X : tsl2561_gain_t := 0x10.

Definition DEFAULT_INTEGRATION_TIME := TSL2561_INTEGRATION_TIME_402MS.
Definition DEFAULT_GAIN := TSL2561_GAIN_1X.

(** ** The session record

    [smbus_info_t *] is an opaque handle: the driver stores it and hands it
    back to the transport, nothing else. *)

Definition smbus_info_t := Z.

Record tsl2561_info_t : Type := mk_info {
  init : bool;
  powered : bool;
  smbus_info : smbus_info_t;
  device_type : tsl2561_device_type_t;
  integration_time : tsl2561_integration_time_t;
  gain : tsl2561_gain_t
}.

(** Field assignments. *)
Definition set_init (i : tsl2561_info_t) (v : bool) : tsl2561_info_t :=
  mk_info v (powered i) (smbus_info i) (device_type i) (integration_time i) (gain i).

Definition set_powered (i : tsl2561_info_t) (v : bool) : tsl2561_info_t :=
  mk_info (init i) v (smbus_info i) (device_type i) (integration_time i) (gain i).

Definition set_smbus_info (i : tsl2561_info_t) (h : smbus_info_t) : tsl2561_info_t :=
  mk_info (init i) (powered i) h (device_type i) (integration_time i) (gain i).

Definition set_device_type (i : tsl2561_info_t) (d : Z) : tsl2561_info_t :=
  mk_info (init i) (powered i) (smbus_info i) d (integration_time i) (gain i).

Definition set_integration_time (i : tsl2561_info_t) (t : Z) : tsl2561_info_t :=
  mk_info (init i) (powered i) (smbus_info i) (device_type i) t (gain i).

Definition set_gain (i : tsl2561_info_t) (g : Z) : tsl2561_info_t :=
  mk_info (init i) (powered i) (smbus_info i) (device_type i) (integration_time i) g.

(** A [tsl2561_info_t *] is [None] when it is NULL and [Some i] when it
    points to a session whose contents are [i]. *)
Definition info_ptr := option tsl2561_info_t.

(** [_is_init] (the two diagnostics it logs are not modelled). *)
Definition _is_init (p : info_ptr) : bool :=
  match p with
  | Some i => if init i then true else false
  | None => false
  end.

(** ** The illuminance estimator *)

Module Lux.

Definition CH_SCALE : Z := 10.
Definition CH_SCALE_TINT0 : Z := 0x7517.
Definition CH_SCALE_TINT1 : Z := 0x0FE7.
Definition RATIO_SCALE : Z := 9.
Definition LUX_SCALE : Z := 14.

(** T, FN and CL package coefficients. *)
Definition TSL2561_K1T : Z := 0x0040.
Definition TSL2561_B1T : Z := 0x01F2.
Definition TSL2561_M1T : Z := 0x01BE.
Definition TSL2561_K2T : Z := 0x0080.
Definition TSL2561_B2T : Z := 0x0214.
Definition TSL2561_M2T : Z := 0x02D1.
Definition TSL2561_K3T : Z := 0x00C0.
Definition TSL2561_B3T : Z := 0x023F.
Definition TSL2561_M3T : Z := 0x037B.
Definition TSL2561_K4T : Z := 0x0100.
Definition TSL2561_B4T : Z := 0x0270.
Definition TSL2561_M4T : Z := 0x03FE.
Definition TSL2561_K5T : Z := 0x0138.
Definition TSL2561_B5T : Z := 0x016F.
Definition TSL2561_M5T : Z := 0x01FC.
Definition TSL2561_K6T : Z := 0x019A.
Definition TSL2561_B6T : Z := 0x00D2.
Definition TSL2561_M6T : Z := 0x00FB.
Definition TSL2561_K7T : Z := 0x029A.
Definition TSL2561_B7T : Z := 0x0018.
Definition TSL2561_M7T : Z := 0x0012.
Definition TSL2561_K8T : Z := 0x029A.
Definition TSL2561_B8T : Z := 0x0000.
Definition TSL2561_M8T : Z := 0x0000.

(** CS package coefficients. *)
Definition TSL2561_K1C : Z := 0x0043.
Definition TSL2561_B1C : Z := 0x0204.
Definition TSL2561_M1C : Z := 0x01AD.
Definition TSL2561_K2C : Z := 0x0085.
Definition TSL2561_B2C : Z := 0x0228.
Definition TSL2561_M2C : Z := 0x02C1.
Definition TSL2561_K3C : Z := 0x00C8.
Definition TSL2561_B3C : Z := 0x0253.
Definition TSL2561_M3C : Z := 0x0363.
Definition TSL2561_K4C : Z := 0x010A.
Definition TSL2561_B4C : Z := 0x0282.
Definition TSL2561_M4C : Z := 0x03DF.
Definition TSL2561_K5C : Z := 0x014D.
Definition TSL2561_B5C : Z := 0x0177.
Definition TSL2561_M5C : Z := 0x01DD.
Definition TSL2561_K6C : Z := 0x019A.
Definition TSL2561_B6C : Z := 0x0101.
Definition TSL2561_M6C : Z := 0x0127.
Definition TSL2561_K7C : Z := 0x029A.
Definition TSL2561_B7C : Z := 0x0037.
Definition TSL2561_M7C : Z := 0x002B.
Definition TSL2561_K8C : Z := 0x029A.
Definition TSL2561_B8C : Z := 0x0000.
Definition TSL2561_M8C : Z := 0x0000.

(** The [switch] on the integration time followed by the gain adjustment:
    the value of [scale] when the channels are scaled. *)
Definition channel_scale (i : tsl2561_info_t) : Z :=
  let scale :=
    if integration_time i =? TSL2561_INTEGRATION_TIME_13MS then CH_SCALE_TINT0
    else if integration_time i =? TSL2561_INTEGRATION_TIME_101MS then CH_SCALE_TINT1
    else u32 (Z.shiftl 1 CH_SCALE) in
  if gain i =? TSL2561_GAIN_1X then u32 (Z.shiftl scale 4) else scale.

(** [((visible + infrared) * scale) >> CH_SCALE]: the sum is an [int], the
    product a [uint32_t]. *)
Definition scaled_channel0 (visible infrared scale : Z) : Z :=
  Z.shiftr (u32 ((visible + infrared) * scale)) CH_SCALE.

(** [(infrared * scale) >> CH_SCALE]. *)
Definition scaled_channel1 (infrared scale : Z) : Z :=
  Z.shiftr (u32 (infrared * scale)) CH_SCALE.

(** [ratio1]: zero unless [channel0 != 0], in which case the quotient of
    [channel1 << (RATIO_SCALE + 1)] by [channel0]. *)
Definition channel_ratio1 (channel0 channel1 : Z) : option Z :=
  if negb (channel0 =? 0)
  then udiv32 (u32 (Z.shiftl channel1 (RATIO_SCALE + 1))) channel0
  else Some 0.

(** [(ratio1 + 1) >> 1]. *)
Definition round_ratio (ratio1 : Z) : Z :=
  Z.shiftr (u32 (ratio1 + 1)) 1.

(** The [if]/[else if] chain of the [case 1] branch; [b] and [m] keep
    their initial value 0 when no condition holds. *)
Definition coefficients_case_1 (ratio : Z) : Z * Z :=
  if ratio <=? TSL2561_K1C then (TSL2561_B1C, TSL2561_M1C)
  else if ratio <=? TSL2561_K2C then (TSL2561_B2C, TSL2561_M2C)
  else if ratio <=? TSL2561_K3C then (TSL2561_B3C, TSL2561_M3C)
  else if ratio <=? TSL2561_K4C then (TSL2561_B4C, TSL2561_M4C)
  else if ratio <=? TSL2561_K5T then (TSL2561_B5C, TSL2561_M5C)
  else if ratio <=? TSL2561_K6T then (TSL2561_B6C, TSL2561_M6C)
  else if ratio <=? TSL2561_K7T then (TSL2561_B7C, TSL2561_M7C)
  else if ratio >? TSL2561_K8C then (TSL2561_B8C, TSL2561_M8C)
  else (0, 0).

(** The chain of the [case 0: default:] branch. *)
Definition coefficients_default (ratio : Z) : Z * Z :=
  if ratio <=? TSL2561_K1T then (TSL2561_B1T, TSL2561_M1T)
  else if ratio <=? TSL2561_K2T then (TSL2561_B2T, TSL2561_M2T)
  else if ratio <=? TSL2561_K3T then (TSL2561_B3T, TSL2561_M3T)
  else if ratio <=? TSL2561_K4T then (TSL2561_B4T, TSL2561_M4T)
  else if ratio <=? TSL2561_K5T then (TSL2561_B5T, TSL2561_M5T)
  else if ratio <=? TSL2561_K6T then (TSL2561_B6T, TSL2561_M6T)
  else if ratio <=? TSL2561_K7T then (TSL2561_B7T, TSL2561_M7T)
  else if ratio >? TSL2561_K8T then (TSL2561_B8T, TSL2561_M8T)
  else (0, 0).

(** [switch (tsl2561_info->device_type)]: the pair [(b, m)]. *)
Definition select_coefficients (device : Z) (ratio : Z) : Z * Z :=
  if device =? 1 then coefficients_case_1 ratio
  else if device =? 0 then coefficients_default ratio
  else coefficients_default ratio.

(** From [temp] to the returned [lux]. *)
Definition lux_of_channels (channel0 channel1 b m : Z) : Z :=
  let temp := u32 (u32 (channel0 * b) - u32 (channel1 * m)) in
  let temp := if u32 (channel1 * m) >? u32 (channel0 * b) then 0 else temp in
  let temp := u32 (temp + Z.shiftl 1 (LUX_SCALE - 1)) in
  Z.shiftr temp LUX_SCALE.

(** The local variables of [tsl2561_compute_lux] once its body has run. *)
Record locals : Type := mk_locals {
  scale : Z;
  channel0 : Z;
  channel1 : Z;
  ratio1 : Z;
  ratio : Z;
  b : Z;
  m : Z;
  lux : Z
}.

(** The body guarded by [_is_init], for a session [i]. *)
Definition compute_lux_body (i : tsl2561_info_t) (visible infrared : Z)
  : option locals :=
  let scale := channel_scale i in
  let channel0 := scaled_channel0 visible infrared scale in
  let channel1 := scaled_channel1 infrared scale in
  match channel_ratio1 channel0 channel1 with
  | None => None
  | Some ratio1 =>
      let ratio := round_ratio ratio1 in
      let '(b, m) := select_coefficients (device_type i) ratio in
      Some (mk_locals scale channel0 channel1 ratio1 ratio b m
              (lux_of_channels channel0 channel1 b m))
  end.

End Lux.

(** [tsl2561_compute_lux]: [None] stands for undefined behaviour. *)
Definition tsl2561_compute_lux (p : info_ptr) (visible infrared : Z)
  : option Z :=
  if _is_init p then
    match p with
    | Some i => option_map Lux.lux (Lux.compute_lux_body i visible infrared)
    | None => Some 0
    end
  else Some 0.

(** ** The SMBus transport and the host scheduler

    The transport ([smbus.h]) and [vTaskDelay] are collaborators of the
    driver: the transport is an interface, and every transaction and every
    delay request is recorded, oldest first. *)

Inductive event : Type :=
| WriteByte (handle command data : Z)
| ReadByte (handle command : Z)
| ReadWord (handle command : Z)
| TaskDelay (ticks : Z).

Class SMBus (bus : Type) : Type := {
  smbus_write_byte : smbus_info_t -> Z -> Z -> bus -> esp_err_t * bus;
  smbus_read_byte : smbus_info_t -> Z -> bus -> esp_err_t * Z * bus;
  smbus_read_word : smbus_info_t -> Z -> bus -> esp_err_t * Z * bus
}.

(** The machine: the session object a non-NULL [tsl2561_info_t *] points to,
    the transport, and the record of what the driver asked for. *)
Record state (bus : Type) : Type := mk_state {
  session : tsl2561_info_t;
  transport : bus;
  events : list event
}.
Arguments mk_state {bus} _ _ _.
Arguments session {bus} _.
Arguments transport {bus} _.
Arguments events {bus} _.

(** The [tsl2561_info_t *] argument of the functions that write through it. *)
Inductive pointer : Type := NULL | SESSION.

(** A transport that answers from a script: each transaction takes the next
    reply (error code and data), and succeeds with data 0 once the script
    is used up. *)
Definition script : Type := list (esp_err_t * Z).

Definition script_reply (s : script) : esp_err_t * Z * script :=
  match s with
  | [] => (ESP_OK, 0, [])
  | r :: rest => (fst r, snd r, rest)
  end.

#[export] Instance scripted_bus : SMBus script := {
  smbus_write_byte _ _ _ s := let '(err, _, rest) := script_reply s in (err, rest);
  smbus_read_byte _ _ s := script_reply s;
  smbus_read_word _ _ s := script_reply s
}.

Section Driver.

Context {bus : Type} {smbus : SMBus bus}.

(** [portTICK_RATE_MS] of the FreeRTOS configuration: milliseconds per tick. *)
Variable portTICK_RATE_MS : Z.

Definition M (A : Type) : Type := state bus -> A * state bus.

Definition ret {A : Type} (a : A) : M A := fun s => (a, s).

Definition bind {A B : Type} (c : M A) (k : A -> M B) : M B :=
  fun s => let (a, s') := c s in k a s'.

Local Notation "x <- c ;; k" := (bind c (fun x => k))
  (at level 61, c at next level, right associativity).
Local Notation "' pat <- c ;; k" := (bind c (fun x => match x with pat => k end))
  (at level 61, pat pattern, c at next level, right associativity).
Local Notation "c ;;; k" := (bind c (fun _ => k))
  (at level 61, right associativity).

(** What the pointer designates: nothing when NULL. *)
Definition load (p : pointer) : M info_ptr :=
  fun s => (match p with NULL => None | SESSION => Some (session s) end, s).

(** [*tsl2561_info], for a pointer already known not to be NULL. *)
Definition deref : M tsl2561_info_t := fun s => (session s, s).

(** An assignment to fields of [*tsl2561_info]. *)
Definition modify (f : tsl2561_info_t -> tsl2561_info_t) : M unit :=
  fun s => (tt, mk_state (f (session s)) (transport s) (events s)).

Definition record (e : event) : M unit :=
  fun s => (tt, mk_state (session s) (transport s) (events s ++ [e])).

Definition on_transport {A : Type} (op : bus -> A * bus) : M A :=
  fun s => let (a, t) := op (transport s) in
           (a, mk_state (session s) t (events s)).

(** [smbus_write_byte]: the data byte is a [uint8_t]. *)
Definition write_byte (h command data : Z) : M esp_err_t :=
  record (WriteByte h command (u8 data)) ;;;
  on_transport (smbus_write_byte h command (u8 data)).

(** [smbus_read_byte] into a [uint8_t] initialised to 0. *)
Definition read_byte (h command : Z) : M (esp_err_t * Z) :=
  record (ReadByte h command) ;;;
  ' (err, data) <- on_transport (smbus_read_byte h command) ;;
  ret (err, if err =? ESP_OK then u8 data else 0).

(** [smbus_read_word] into a [uint16_t] initialised to 0. *)
Definition read_word (h command : Z) : M (esp_err_t * Z) :=
  record (ReadWord h command) ;;;
  ' (err, data) <- on_transport (smbus_read_word h command) ;;
  ret (err, if err =? ESP_OK then u16 data else 0).

Definition vTaskDelay (ticks : Z) : M unit := record (TaskDelay ticks).

Definition is_init (p : pointer) : M bool :=
  ip <- load p ;; ret (_is_init ip).

(** ** The driver *)

Definition _check_device_id (device : tsl2561_device_type_t) : bool :=
  let name : option nat :=
    if device =? TSL2561_DEVICE_TYPE_TSL2560CS then Some 0%nat
    else if device =? TSL2561_DEVICE_TYPE_TSL2561CS then Some 1%nat
    else if device =? TSL2561_DEVICE_TYPE_TSL2560T_FN_CL then Some 2%nat
    else if device =? TSL2561_DEVICE_TYPE_TSL2561T_FN_CL then Some 3%nat
    else None in
  match name with Some _ => true | None => false end.

Definition _power_up (p : pointer) : M esp_err_t :=
  ip <- load p ;;
  match ip with
  | Some i =>
      if negb (powered i) then
        err <- write_byte (smbus_info i) (Z.lor REG_CONTROL SMB_COMMAND)
                 TSL2561_CONTROL_POWER_UP ;;
        (if err =? ESP_OK then modify (fun i => set_powered i true) else ret tt) ;;;
        ret err
      else ret ESP_OK
  | None => ret ESP_FAIL
  end.

Definition _power_down (p : pointer) : M esp_err_t :=
  ip <- load p ;;
  match ip with
  | Some i =>
      if powered i then
        err <- write_byte (smbus_info i) (Z.lor REG_CONTROL SMB_COMMAND)
                 TSL2561_CONTROL_POWER_DOWN ;;
        (if err =? ESP_OK then modify (fun i => set_powered i false) else ret tt) ;;;
        ret err
      else ret ESP_OK
  | None => ret ESP_FAIL
  end.

Definition _set_integration_time_and_gain (p : pointer)
    (integration_time gain : Z) : M esp_err_t :=
  ip <- load p ;;
  match ip with
  | Some i =>
      if powered i then
        err <- write_byte (smbus_info i) (Z.lor REG_TIMING SMB_COMMAND)
                 (Z.lor integration_time gain) ;;
        (if err =? ESP_OK
         then modify (fun i => set_integration_time i integration_time) ;;;
              modify (fun i => set_gain i gain)
         else ret tt) ;;;
        ret err
      else ret ESP_FAIL
  | None => ret ESP_FAIL
  end.

(** [tsl2561_malloc]: [allocated] is the outcome of [malloc]; a fresh
    record is cleared by [memset]. *)
Definition tsl2561_malloc (allocated : bool) : M pointer :=
  if allocated then
    modify (fun _ => mk_info false false 0 0 0 0) ;;;
    ret SESSION
  else ret NULL.

(** [tsl2561_free]: the argument is a [tsl2561_info_t **], [None] when it
    is NULL and [Some p] when it points to a cell holding [p]; the result is
    the cell afterwards.  The release of the record itself is not modelled. *)
Definition tsl2561_free (pp : option pointer) : option pointer :=
  match pp with
  | Some SESSION => Some NULL
  | Some NULL => pp
  | None => pp
  end.

(** [tsl2561_device_id]: [device] and [revision] tell whether the two out
    pointers are non-NULL; the result carries what was written through
    them, if anything. *)
Definition tsl2561_device_id (p : pointer) (device revision : bool)
  : M (esp_err_t * option (Z * Z)) :=
  ok <- is_init p ;;
  if ok && device && revision then
    i <- deref ;;
    ' (err, id) <- read_byte (smbus_info i) (Z.lor REG_ID SMB_COMMAND) ;;
    if err =? ESP_OK
    then ret (err, Some (Z.land (Z.shiftr id 4) 0x0f, Z.land id 0x0f))
    else ret (err, None)
  else ret (ESP_FAIL, None).

Definition tsl2561_init (p : pointer) (smbus_info : smbus_info_t) : M esp_err_t :=
  match p with
  | SESSION =>
      modify (fun i => set_smbus_info i smbus_info) ;;;
      modify (fun i => set_powered i false) ;;;
      modify (fun i => set_integration_time i DEFAULT_INTEGRATION_TIME) ;;;
      modify (fun i => set_gain i DEFAULT_GAIN) ;;;
      modify (fun i => set_device_type i TSL2561_DEVICE_TYPE_INVALID) ;;;
      modify (fun i => set_init i true) ;;;
      ' (err, out) <- tsl2561_device_id p true true ;;
      let device_type :=
        match out with
        | Some (d, _) => d
        | None => TSL2561_DEVICE_TYPE_INVALID
        end in
      if err =? ESP_OK then
        if _check_device_id device_type then
          modify (fun i => set_device_type i device_type) ;;;
          ret ESP_OK
        else ret err
      else ret err
  | NULL => ret ESP_FAIL
  end.

(** The [switch] of [tsl2561_read]: [default] falls through to the 402 ms
    case. *)
Definition read_delay (integration_time : Z) : Z :=
  if integration_time =? TSL2561_INTEGRATION_TIME_13MS then 15
  else if integration_time =? TSL2561_INTEGRATION_TIME_101MS then 120
  else if integration_time =? TSL2561_INTEGRATION_TIME_402MS then 450
  else 450.

(** The argument of [vTaskDelay], a [TickType_t]. *)
Definition delay_ticks (delay : Z) : Z :=
  u32 (u32 (delay - 1) / portTICK_RATE_MS + 1).

(** [tsl2561_read]: [visible] and [infrared] tell whether the two out
    pointers are non-NULL; the result carries the pair written through
    them, if any. *)
Definition tsl2561_read (p : pointer) (visible infrared : bool)
  : M (esp_err_t * option (Z * Z)) :=
  ok <- is_init p ;;
  if ok && visible && infrared then
    err <- _power_up p ;;
    if err =? ESP_OK then
      i <- deref ;;
      let delay := read_delay (integration_time i) in
      vTaskDelay (delay_ticks delay) ;;;
      ' (err, ch0) <- read_word (smbus_info i)
                        (Z.lor (Z.lor REG_DATA0LOW SMB_COMMAND) SMB_WORD) ;;
      if err =? ESP_OK then
        ' (err, ch1) <- read_word (smbus_info i)
                          (Z.lor (Z.lor REG_DATA1LOW SMB_COMMAND) SMB_WORD) ;;
        if err =? ESP_OK then
          err <- _power_down p ;;
          if err =? ESP_OK
          then ret (err, Some (u16 (ch0 - ch1), ch1))
          else ret (err, None)
        else ret (err, None)
      else ret (err, None)
    else ret (err, None)
  else ret (ESP_FAIL, None).

Definition tsl2561_set_integration_time_and_gain (p : pointer)
    (integration_time gain : Z) : M esp_err_t :=
  ok <- is_init p ;;
  if ok then
    err <- _power_up p ;;
    if err =? ESP_OK then
      err <- _set_integration_time_and_gain p integration_time gain ;;
      (if err =? ESP_OK
       then modify (fun i => set_integration_time i integration_time) ;;;
            modify (fun i => set_gain i gain)
       else ret tt) ;;;
      pderr <- _power_down p ;;
      ret (if negb (pderr =? ESP_OK) then pderr else err)
    else ret err
  else ret ESP_FAIL.

End Driver.

(** ** Specification-side definitions *)

Module LuxSpec.
Import Lux.

(** The table lookup as the specification words it: the pair of the first
    threshold, in table order, that the ratio is less than or equal to, and
    the initial pair (0, 0) when there is none. *)
Fixpoint spec_lookup (table : list (Z * (Z * Z))) (ratio : Z) : Z * Z :=
  match table with
  | [] => (0, 0)
  | (k, bm) :: rest => if ratio <=? k then bm else spec_lookup rest ratio
  end.

(** The eight (threshold, (intercept, slope)) rows the [case 1] branch
    consults, in order. *)
Definition case_1_table : list (Z * (Z * Z)) :=
  [ (TSL2561_K1C, (TSL2561_B1C, TSL2561_M1C));
    (TSL2561_K2C, (TSL2561_B2C, TSL2561_M2C));
    (TSL2561_K3C, (TSL2561_B3C, TSL2561_M3C));
    (TSL2561_K4C, (TSL2561_B4C, TSL2561_M4C));
    (TSL2561_K5T, (TSL2561_B5C, TSL2561_M5C));
    (TSL2561_K6T, (TSL2561_B6C, TSL2561_M6C));
    (TSL2561_K7T, (TSL2561_B7C, TSL2561_M7C));
    (TSL2561_K8C, (TSL2561_B8C, TSL2561_M8C)) ].

(** The rows of the [case 0: default:] branch. *)
Definition default_table : list (Z * (Z * Z)) :=
  [ (TSL2561_K1T, (TSL2561_B1T, TSL2561_M1T));
    (TSL2561_K2T, (TSL2561_B2T, TSL2561_M2T));
    (TSL2561_K3T, (TSL2561_B3T, TSL2561_M3T));
    (TSL2561_K4T, (TSL2561_B4T, TSL2561_M4T));
    (TSL2561_K5T, (TSL2561_B5T, TSL2561_M5T));
    (TSL2561_K6T, (TSL2561_B6T, TSL2561_M6T));
    (TSL2561_K7T, (TSL2561_B7T, TSL2561_M7T));
    (TSL2561_K8T, (TSL2561_B8T, TSL2561_M8T)) ].

Definition branch_table (device : Z) : list (Z * (Z * Z)) :=
  if device =? 1 then case_1_table else default_table.

Definition thresholds (table : list (Z * (Z * Z))) : list Z := map fst table.

Fixpoint ascending (l : list Z) : bool :=
  match l with
  | x :: (y :: _) as rest => (x <=? y) && ascending rest
  | _ => true
  end.

(** The package families of [tsl2561_device_type_t], as the header
    documents its enumerators. *)
Inductive family : Type := Chipscale | T_FN_CL | Unrecognised.

Definition family_of (device : Z) : family :=
  if device =? TSL2561_DEVICE_TYPE_TSL2560CS then Chipscale
  else if device =? TSL2561_DEVICE_TYPE_TSL2561CS then Chipscale
  else if device =? TSL2561_DEVICE_TYPE_TSL2560T_FN_CL then T_FN_CL
  else if device =? TSL2561_DEVICE_TYPE_TSL2561T_FN_CL then T_FN_CL
  else Unrecognised.

(** The coefficient set the specification assigns to a family. *)
Definition spec_coefficients (device ratio : Z) : Z * Z :=
  match family_of device with
  | Chipscale => coefficients_case_1 ratio
  | T_FN_CL | Unrecognised => coefficients_default ratio
  end.

(** The scaling constant as the specification words it. *)
Definition spec_scale (integration_time gain : Z) : Z :=
  let base :=
    if integration_time =? TSL2561_INTEGRATION_TIME_13MS then 0x7517
    else if integration_time =? TSL2561_INTEGRATION_TIME_101MS then 0x0FE7
    else 1 * 2 ^ 10 in
  if gain =? TSL2561_GAIN_1X then base * 2 ^ 4 else base.

(** The operands of the four multiplications of [tsl2561_compute_lux]. *)
Definition multiply_steps (visible infrared : Z) (l : locals) : list (Z * Z) :=
  [ (visible + infrared, scale l);
    (infrared, scale l);
    (channel0 l, b l);
    (channel1 l, m l) ].

(** A product of two operands is representable in a [uint32_t]. *)
Definition fits_u32 (operands : Z * Z) : Prop :=
  0 <= fst operands * snd operands < 2 ^ 32.

End LuxSpec.

(** ** Sessions and transports used as concrete inputs *)

Module Sample.

(** A zeroed record, as [tsl2561_malloc] returns it. *)
Definition zeroed : tsl2561_info_t := mk_info false false 0 0 0 0.

(** An initialised TSL2561CS session at the defaults, bound to handle 7. *)
Definition ready : tsl2561_info_t :=
  mk_info true false 7 TSL2561_DEVICE_TYPE_TSL2561CS
    TSL2561_INTEGRATION_TIME_402MS TSL2561_GAIN_1X.

(** The same session at 13 ms and gain 1x. *)
Definition short_1x : tsl2561_info_t :=
  mk_info true false 7 TSL2561_DEVICE_TYPE_TSL2561CS
    TSL2561_INTEGRATION_TIME_13MS TSL2561_GAIN_1X.

(** Chipscale sessions of either part at 402 ms and gain 16x. *)
Definition cs_2560 : tsl2561_info_t :=
  mk_info true false 7 TSL2561_DEVICE_TYPE_TSL2560CS
    TSL2561_INTEGRATION_TIME_402MS TSL2561_GAIN_16X.

Definition cs_2561 : tsl2561_info_t :=
  mk_info true false 7 TSL2561_DEVICE_TYPE_TSL2561CS
    TSL2561_INTEGRATION_TIME_402MS TSL2561_GAIN_16X.

(** A machine over the scripted transport. *)
Definition machine (i : tsl2561_info_t) (replies : script) : state script :=
  mk_state i replies [].

(** The identification register answers 0x2A: package bits 0b0010. *)
Definition unknown_package : state script := machine zeroed [(ESP_OK, 0x2A)].

(** Power-up acknowledged, then the timing write fails with 3 and the
    power-down with 4. *)
Definition write_and_power_down_fail : state script :=
  machine ready [(ESP_OK, 0); (3, 0); (4, 0)].

(** The power-up itself fails with 9. *)
Definition power_up_fails : state script :=
  machine ready [(9, 0); (3, 0); (4, 0)].

(** Every transaction succeeds; the channels read 1000 and 100. *)
Definition all_ok : state script :=
  machine ready [(ESP_OK, 0); (ESP_OK, 1000); (ESP_OK, 100); (ESP_OK, 0)].

(** The session already powered, as a failed read leaves it. *)
Definition ready_powered : tsl2561_info_t :=
  mk_info true true 7 TSL2561_DEVICE_TYPE_TSL2561CS
    TSL2561_INTEGRATION_TIME_402MS TSL2561_GAIN_1X.

(** A T/FN/CL session at 402 ms and gain 16x. *)
Definition tfncl_16x : tsl2561_info_t :=
  mk_info true false 7 TSL2561_DEVICE_TYPE_TSL2561T_FN_CL
    TSL2561_INTEGRATION_TIME_402MS TSL2561_GAIN_16X.

(** The identification register answers 0x1A: TSL2561CS, revision 10. *)
Definition identifies_1a : state script := machine ready [(ESP_OK, 0x1A)].

(** Power-up acknowledged, then the channel-0 read fails with 6. *)
Definition channel0_fails : state script :=
  machine ready [(ESP_OK, 0); (6, 0)].

(** Every transaction succeeds; channel 0 reads 100 and channel 1 reads
    1000. *)
Definition infrared_above : state script :=
  machine ready [(ESP_OK, 0); (ESP_OK, 100); (ESP_OK, 1000); (ESP_OK, 0)].

(** A powered session whose transactions all succeed. *)
Definition powered_all_ok : state script :=
  machine ready_powered [(ESP_OK, 1000); (ESP_OK, 100); (ESP_OK, 0)].

(** The timing write fails with 3, the other two writes succeed. *)
Definition timing_write_fails : state script :=
  machine ready [(ESP_OK, 0); (3, 0); (ESP_OK, 0)].

End Sample.

(** * Properties *)

(** ** Fixed-width arithmetic *)

Lemma u32_small (x : Z) : 0 <= x < 2 ^ 32 -> u32 x = x.
Proof. intros H. unfold u32. now apply Z.mod_small. Qed.

Lemma u32_range (x : Z) : 0 <= u32 x < 2 ^ 32.
Proof. unfold u32. apply Z.mod_pos_bound. lia. Qed.

(** ** The estimator, stage by stage *)

Module LuxFacts.
Import Lux LuxSpec.

Lemma channel_scale_values (i : tsl2561_info_t) :
  channel_scale i = spec_scale (integration_time i) (gain i).
Proof.
  unfold channel_scale, spec_scale.
  destruct (integration_time i =? TSL2561_INTEGRATION_TIME_13MS);
    [| destruct (integration_time i =? TSL2561_INTEGRATION_TIME_101MS)];
    destruct (gain i =? TSL2561_GAIN_1X); reflexivity.
Qed.

Lemma scaled_channel_range (x : Z) :
  0 <= Z.shiftr (u32 x) CH_SCALE < 2 ^ 22.
Proof.
  pose proof (u32_range x) as Hx. unfold CH_SCALE.
  rewrite Z.shiftr_div_pow2 by lia.
  split.
  - apply Z.div_pos; lia.
  - apply Z.div_lt_upper_bound; lia.
Qed.

(** The division of [channel_ratio1] is reached with a non-zero divisor
    only, so the function never faults. *)
Lemma channel_ratio1_defined (c0 c1 : Z) :
  channel_ratio1 c0 c1 =
  Some (if c0 =? 0 then 0 else u32 (c1 * 2 ^ 10) / c0).
Proof.
  unfold channel_ratio1, udiv32, RATIO_SCALE.
  destruct (c0 =? 0) eqn:E; cbn [negb]; [reflexivity |].
  rewrite Z.shiftl_mul_pow2 by lia. reflexivity.
Qed.

Lemma coefficients_case_1_lookup (r : Z) :
  coefficients_case_1 r = spec_lookup case_1_table r.
Proof.
  cbv [coefficients_case_1 case_1_table spec_lookup].
  repeat match goal with
         | |- context [r <=? ?y] => destruct (r <=? y); try reflexivity
         end.
  all: destruct (r >? TSL2561_K8C); reflexivity.
Qed.

Lemma coefficients_default_lookup (r : Z) :
  coefficients_default r = spec_lookup default_table r.
Proof.
  cbv [coefficients_default default_table spec_lookup].
  repeat match goal with
         | |- context [r <=? ?y] => destruct (r <=? y); try reflexivity
         end.
  all: destruct (r >? TSL2561_K8T); reflexivity.
Qed.

Lemma select_coefficients_lookup (device r : Z) :
  select_coefficients device r = spec_lookup (branch_table device) r.
Proof.
  unfold select_coefficients, branch_table.
  destruct (device =? 1).
  - apply coefficients_case_1_lookup.
  - destruct (device =? 0); apply coefficients_default_lookup.
Qed.

(** Past every row of a table the lookup keeps the initial pair. *)
Lemma spec_lookup_past (table : list (Z * (Z * Z))) (r : Z) :
  Forall (fun k => k < r) (thresholds table) -> spec_lookup table r = (0, 0).
Proof.
  induction table as [| [k bm] rest IH]; intros H; [reflexivity |].
  inversion H as [| ? ? Hk Hrest]; subst. simpl in Hk |- *.
  destruct (r <=? k) eqn:E.
  - apply Z.leb_le in E. lia.
  - now apply IH.
Qed.

Lemma select_coefficients_range (device r : Z) :
  0 <= fst (select_coefficients device r) <= 0x0282 /\
  0 <= snd (select_coefficients device r) <= 0x03FE.
Proof.
  unfold select_coefficients, coefficients_case_1, coefficients_default.
  destruct (device =? 1); [| destruct (device =? 0)];
    repeat match goal with
           | |- context [?x <=? ?y] => destruct (x <=? y); [vm_compute; intuition discriminate |]
           | |- context [?x >? ?y] => destruct (x >? y); [vm_compute; intuition discriminate |]
           end; vm_compute; intuition discriminate.
Qed.

Lemma lux_of_channels_zero_coefficients (c0 c1 : Z) :
  lux_of_channels c0 c1 0 0 = 0.
Proof.
  unfold lux_of_channels. rewrite !Z.mul_0_r. reflexivity.
Qed.

(** The body always runs to completion, with these locals. *)
Lemma compute_lux_body_defined (i : tsl2561_info_t) (visible infrared : Z) :
  exists l,
    compute_lux_body i visible infrared = Some l /\
    scale l = channel_scale i /\
    channel0 l = scaled_channel0 visible infrared (scale l) /\
    channel1 l = scaled_channel1 infrared (scale l) /\
    ratio1 l = (if channel0 l =? 0 then 0
                else u32 (channel1 l * 2 ^ 10) / channel0 l) /\
    ratio l = round_ratio (ratio1 l) /\
    (b l, m l) = select_coefficients (device_type i) (ratio l) /\
    lux l = lux_of_channels (channel0 l) (channel1 l) (b l) (m l).
Proof.
  unfold compute_lux_body.
  rewrite channel_ratio1_defined.
  destruct (select_coefficients (device_type i) _) as [b0 m0] eqn:E.
  eexists. split; [reflexivity |].
  cbn [scale channel0 channel1 ratio1 ratio b m lux].
  repeat split. symmetry. exact E.
Qed.

End LuxFacts.

(** ** The estimator: claims *)

Section Estimator.
Import Lux LuxSpec LuxFacts.

(** C10: for a NULL session pointer, and for a session whose [init] flag is
    false, [tsl2561_compute_lux] returns exactly 0 whatever the visible and
    infrared inputs: the result is a plain value, not an error. *)
Theorem compute_lux_without_session (p : info_ptr) (visible infrared : Z)
  (H : p = None \/ exists i, p = Some i /\ init i = false) :
  tsl2561_compute_lux p visible infrared = Some 0.
Proof.
  destruct H as [-> | [i [-> Hi]]]; unfold tsl2561_compute_lux, _is_init.
  - reflexivity.
  - rewrite Hi. reflexivity.
Qed.

Lemma compute_lux_without_session_witness :
  tsl2561_compute_lux None 1000 100 = Some 0 /\
  tsl2561_compute_lux (Some Sample.zeroed) 1000 100 = Some 0.
Proof.
  split.
  - exact (compute_lux_without_session None 1000 100 (or_introl eq_refl)).
  - exact (compute_lux_without_session (Some Sample.zeroed) 1000 100
             (or_intror (ex_intro _ Sample.zeroed (conj eq_refl eq_refl)))).
Defined.

(** An initialised session runs the body and returns its [lux]. *)
Lemma compute_lux_initialised (i : tsl2561_info_t) (visible infrared : Z) (l : locals) :
  init i = true ->
  compute_lux_body i visible infrared = Some l ->
  tsl2561_compute_lux (Some i) visible infrared = Some (lux l).
Proof.
  intros Hi Hl. unfold tsl2561_compute_lux, _is_init.
  rewrite Hi, Hl. reflexivity.
Qed.

(** The shift of [channel1] and the increment of [ratio1] stay below 2^32. *)
Lemma ratio_without_wrap (c0 c1 : Z) :
  0 <= c0 < 2 ^ 22 -> 0 <= c1 < 2 ^ 22 ->
  let r1 := if c0 =? 0 then 0 else u32 (c1 * 2 ^ 10) / c0 in
  r1 = (if c0 =? 0 then 0 else (c1 * 2 ^ 10) / c0) /\
  round_ratio r1 = (r1 + 1) / 2.
Proof.
  intros H0 H1 r1.
  assert (Hr : 0 <= r1 <= c1 * 2 ^ 10).
  { subst r1. destruct (c0 =? 0) eqn:E; [lia |].
    apply Z.eqb_neq in E. rewrite u32_small by lia.
    split; [apply Z.div_pos; lia |].
    apply Z.div_le_upper_bound; nia. }
  split.
  - subst r1. destruct (c0 =? 0); [reflexivity |].
    rewrite u32_small by lia. reflexivity.
  - unfold round_ratio. rewrite u32_small by lia.
    rewrite Z.shiftr_div_pow2 by lia. reflexivity.
Qed.

(** C6: the ratio of the scaled channels is 0 whenever the scaled channel 0
    is 0 and the quotient of [channel1 * 2^10] by [channel0] otherwise, so the
    division never meets a zero divisor and the computation always returns;
    the ratio is rounded by adding 1 and halving; and an initialised session
    maps visible = 0, infrared = 0 to exactly 0 lux. *)
Theorem ratio_guard_and_zero_input (i : tsl2561_info_t) (Hinit : init i = true)
    (visible infrared : Z) :
  (exists l,
      compute_lux_body i visible infrared = Some l /\
      ratio1 l = (if channel0 l =? 0 then 0
                  else (channel1 l * 2 ^ 10) / channel0 l) /\
      ratio l = (ratio1 l + 1) / 2 /\
      tsl2561_compute_lux (Some i) visible infrared = Some (lux l)) /\
  (forall c1, channel_ratio1 0 c1 = Some 0) /\
  (exists l,
      compute_lux_body i 0 0 = Some l /\
      channel0 l = 0 /\ ratio1 l = 0 /\ ratio l = 0 /\ lux l = 0) /\
  tsl2561_compute_lux (Some i) 0 0 = Some 0.
Proof.
  assert (Hzero : exists l,
             compute_lux_body i 0 0 = Some l /\
             channel0 l = 0 /\ ratio1 l = 0 /\ ratio l = 0 /\ lux l = 0).
  { destruct (compute_lux_body_defined i 0 0)
      as (l & Hl & _ & H0 & H1 & Hr1 & Hr & _ & Hlux).
    assert (E0 : channel0 l = 0).
    { rewrite H0. unfold scaled_channel0. rewrite Z.mul_0_l. reflexivity. }
    assert (E1 : channel1 l = 0).
    { rewrite H1. unfold scaled_channel1. rewrite Z.mul_0_l. reflexivity. }
    exists l. rewrite E0 in Hr1. simpl in Hr1.
    rewrite Hr1 in Hr. rewrite Hlux, E0, E1.
    repeat split; try assumption. }
  split; [| split; [| split]].
  - destruct (compute_lux_body_defined i visible infrared)
      as (l & Hl & _ & H0 & H1 & Hr1 & Hr & _).
    exists l.
    assert (B0 : 0 <= channel0 l < 2 ^ 22)
      by (rewrite H0; apply scaled_channel_range).
    assert (B1 : 0 <= channel1 l < 2 ^ 22)
      by (rewrite H1; apply scaled_channel_range).
    destruct (ratio_without_wrap _ _ B0 B1) as [Ha Hb].
    rewrite <- Hr1 in Ha, Hb.
    repeat split; try assumption.
    + now rewrite Hr.
    + now apply compute_lux_initialised.
  - intros c1. reflexivity.
  - exact Hzero.
  - destruct Hzero as (l & Hl & _ & _ & _ & Hlux).
    rewrite (compute_lux_initialised _ _ _ _ Hinit Hl). now rewrite Hlux.
Qed.

Lemma ratio_guard_and_zero_input_witness :
  tsl2561_compute_lux (Some Sample.ready) 0 0 = Some 0.
Proof.
  exact (proj2 (proj2 (proj2
           (ratio_guard_and_zero_input Sample.ready eq_refl 1000 100)))).
Defined.

(** C2: for every rounded ratio the pair (b, m) is the pair of the first row,
    among the eight of the branch taken, whose threshold the ratio is less
    than or equal to; the thresholds are ascending; in the [device_type == 1]
    branch the fifth, sixth and seventh thresholds are [TSL2561_K5T] (0x0138),
    [TSL2561_K6T] (0x019A) and [TSL2561_K7T] (0x029A), so that a ratio between
    [TSL2561_K5T] and [TSL2561_K5C] already takes the sixth pair; and a ratio
    past the first seven thresholds yields intercept 0 and slope 0, hence 0
    lux. *)
Theorem coefficient_lookup (device ratio : Z) :
  select_coefficients device ratio = spec_lookup (branch_table device) ratio /\
  ascending (thresholds (branch_table device)) = true /\
  thresholds (branch_table 1) =
    [TSL2561_K1C; TSL2561_K2C; TSL2561_K3C; TSL2561_K4C;
     TSL2561_K5T; TSL2561_K6T; TSL2561_K7T; TSL2561_K8C] /\
  (TSL2561_K5T, TSL2561_K6T, TSL2561_K7T) = (0x0138, 0x019A, 0x029A) /\
  TSL2561_K5T < 0x0140 <= TSL2561_K5C /\
  select_coefficients 1 0x0140 = (TSL2561_B6C, TSL2561_M6C) /\
  (Forall (fun k => k < ratio) (firstn 7 (thresholds (branch_table device))) ->
   select_coefficients device ratio = (0, 0) /\
   forall c0 c1,
     lux_of_channels c0 c1 (fst (select_coefficients device ratio))
       (snd (select_coefficients device ratio)) = 0).
Proof.
  split; [apply select_coefficients_lookup |].
  split; [unfold branch_table; destruct (device =? 1); reflexivity |].
  split; [reflexivity |].
  split; [reflexivity |].
  split; [vm_compute; intuition discriminate |].
  split; [reflexivity |].
  intros Hpast.
  assert (E : select_coefficients device ratio = (0, 0)).
  { rewrite select_coefficients_lookup. apply spec_lookup_past.
    unfold branch_table in *.
    destruct (device =? 1); cbv [thresholds case_1_table default_table map fst firstn] in *;
      repeat match goal with
             | H : Forall _ (_ :: _) |- _ => inversion_clear H
             end;
      repeat constructor; try assumption;
      match goal with H : TSL2561_K7T < ratio |- _ => exact H end. }
  split; [exact E |].
  intros c0 c1. rewrite E. apply lux_of_channels_zero_coefficients.
Qed.

Lemma coefficient_lookup_witness :
  select_coefficients 1 0x029B = (0, 0) /\
  lux_of_channels 1000 100 (fst (select_coefficients 1 0x029B))
    (snd (select_coefficients 1 0x029B)) = 0.
Proof.
  assert (Hpast : Forall (fun k => k < 0x029B)
                    (firstn 7 (thresholds (branch_table 1)))).
  { repeat constructor. }
  destruct (proj2 (proj2 (proj2 (proj2 (proj2 (proj2
              (coefficient_lookup 1 0x029B)))))) Hpast) as [E Hlux].
  split; [exact E | exact (Hlux 1000 100)].
Defined.

End Estimator.

Section EstimatorConfiguration.
Import Lux LuxSpec LuxFacts.

(** Away from the TSL2560CS encoding the [switch] agrees with the package
    families of the header. *)
Lemma select_coefficients_by_family (device ratio : Z) :
  device <> TSL2561_DEVICE_TYPE_TSL2560CS ->
  select_coefficients device ratio = spec_coefficients device ratio.
Proof.
  intros Hd. unfold select_coefficients, spec_coefficients, family_of.
  destruct (device =? TSL2561_DEVICE_TYPE_TSL2560CS) eqn:E0.
  - apply Z.eqb_eq in E0. contradiction.
  - change (device =? 1) with (device =? TSL2561_DEVICE_TYPE_TSL2561CS).
    destruct (device =? TSL2561_DEVICE_TYPE_TSL2561CS); [reflexivity |].
    destruct (device =? 0);
      destruct (device =? TSL2561_DEVICE_TYPE_TSL2560T_FN_CL);
      destruct (device =? TSL2561_DEVICE_TYPE_TSL2561T_FN_CL); reflexivity.
Qed.

(** C3, on the code: a TSL2560CS session (encoding 0b0000, a chipscale part)
    falls in the [case 0: default:] branch and is given the T/FN/CL
    coefficients for every ratio; at ratio 0 they differ from the chipscale
    ones, and 1000 visible counts at 402 ms and gain 16x read 30 lux on a
    TSL2560CS against 31 lux on a TSL2561CS. *)
Theorem tsl2560cs_takes_default_branch :
  family_of TSL2561_DEVICE_TYPE_TSL2560CS = Chipscale /\
  (forall ratio,
      select_coefficients TSL2561_DEVICE_TYPE_TSL2560CS ratio =
      coefficients_default ratio) /\
  select_coefficients TSL2561_DEVICE_TYPE_TSL2560CS 0 = (TSL2561_B1T, TSL2561_M1T) /\
  spec_coefficients TSL2561_DEVICE_TYPE_TSL2560CS 0 = (TSL2561_B1C, TSL2561_M1C) /\
  (TSL2561_B1T, TSL2561_M1T) <> (TSL2561_B1C, TSL2561_M1C) /\
  tsl2561_compute_lux (Some Sample.cs_2560) 1000 0 = Some 30 /\
  tsl2561_compute_lux (Some Sample.cs_2561) 1000 0 = Some 31.
Proof.
  repeat split; try reflexivity.
  vm_compute. discriminate.
Qed.

(** C9: the scaling constant is 0x7517 at 13 ms, 0x0FE7 at 101 ms and
    [1 << 10] at 402 ms and at any other integration time, times 2^4 exactly
    when the gain is 1x; the scaled channels are the [uint32_t] products
    [(visible + infrared) * scale] and [infrared * scale] shifted right by
    10 bits. *)
Theorem channel_scaling (i : tsl2561_info_t) (visible infrared : Z) :
  exists l,
    compute_lux_body i visible infrared = Some l /\
    scale l = spec_scale (integration_time i) (gain i) /\
    channel0 l = (((visible + infrared) * scale l) mod 2 ^ 32) / 2 ^ 10 /\
    channel1 l = ((infrared * scale l) mod 2 ^ 32) / 2 ^ 10.
Proof.
  destruct (compute_lux_body_defined i visible infrared)
    as (l & Hl & Hs & H0 & H1 & _).
  exists l. split; [exact Hl |]. split.
  - rewrite Hs. apply channel_scale_values.
  - rewrite H0, H1. unfold scaled_channel0, scaled_channel1, u32, CH_SCALE.
    rewrite !Z.shiftr_div_pow2 by lia. split; reflexivity.
Qed.

(** The scaling constant of each configuration. *)
Lemma spec_scale_cases (t g : Z) :
  spec_scale t g =
  if g =? TSL2561_GAIN_1X then
    if t =? TSL2561_INTEGRATION_TIME_13MS then 479600
    else if t =? TSL2561_INTEGRATION_TIME_101MS then 65136
    else 16384
  else
    if t =? TSL2561_INTEGRATION_TIME_13MS then 29975
    else if t =? TSL2561_INTEGRATION_TIME_101MS then 4071
    else 1024.
Proof.
  unfold spec_scale.
  destruct (g =? TSL2561_GAIN_1X), (t =? TSL2561_INTEGRATION_TIME_13MS),
    (t =? TSL2561_INTEGRATION_TIME_101MS); reflexivity.
Qed.

(** C5 as stated fails: at 13 ms and gain 1x the scaling constant is 479600,
    and [infrared * scale] for infrared = 10000 is 4796000000, beyond 2^32. *)
Lemma scaling_product_overflows :
  init Sample.short_1x = true /\
  0 <= 0 < 2 ^ 16 /\ 0 <= 10000 < 2 ^ 16 /\
  compute_lux_body Sample.short_1x 0 10000 =
    Some (mk_locals 479600 489289 489289 1024 512 55 43 358) /\
  ~ Forall fits_u32
      (multiply_steps 0 10000 (mk_locals 479600 489289 489289 1024 512 55 43 358)).
Proof.
  split; [reflexivity |]. split; [lia |]. split; [lia |].
  split; [reflexivity |].
  intros H. inversion_clear H as [| ? ? _ H1].
  inversion_clear H1 as [| ? ? H2 _].
  unfold fits_u32 in H2. simpl in H2. lia.
Qed.

(** C5, amended: for 16-bit inputs the products [channel0 * b] and
    [channel1 * m] always fit in 32 bits; the two channel-scaling products fit
    for every input when the gain is not 1x or the integration time is neither
    13 ms nor 101 ms; at gain 1x they fit at 13 ms exactly when the multiplied
    count is at most 8955, and at 101 ms [infrared * scale] always fits and
    [(visible + infrared) * scale] fits exactly when the sum is at most
    65938. *)
Theorem multiply_steps_bounds (i : tsl2561_info_t) (visible infrared : Z)
    (Hinit : init i = true)
    (Hv : 0 <= visible < 2 ^ 16) (Hi : 0 <= infrared < 2 ^ 16) :
  exists l,
    compute_lux_body i visible infrared = Some l /\
    fits_u32 (channel0 l, b l) /\
    fits_u32 (channel1 l, m l) /\
    (gain i <> TSL2561_GAIN_1X \/
     (integration_time i <> TSL2561_INTEGRATION_TIME_13MS /\
      integration_time i <> TSL2561_INTEGRATION_TIME_101MS) ->
     fits_u32 (visible + infrared, scale l) /\ fits_u32 (infrared, scale l)) /\
    (gain i = TSL2561_GAIN_1X ->
     integration_time i = TSL2561_INTEGRATION_TIME_13MS ->
     (fits_u32 (visible + infrared, scale l) <-> visible + infrared <= 8955) /\
     (fits_u32 (infrared, scale l) <-> infrared <= 8955)) /\
    (gain i = TSL2561_GAIN_1X ->
     integration_time i = TSL2561_INTEGRATION_TIME_101MS ->
     (fits_u32 (visible + infrared, scale l) <-> visible + infrared <= 65938) /\
     fits_u32 (infrared, scale l)).
Proof.
  destruct (compute_lux_body_defined i visible infrared)
    as (l & Hl & Hs & H0 & H1 & _ & _ & Hbm & _).
  exists l. split; [exact Hl |].
  assert (B0 : 0 <= channel0 l < 2 ^ 22)
    by (rewrite H0; apply scaled_channel_range).
  assert (B1 : 0 <= channel1 l < 2 ^ 22)
    by (rewrite H1; apply scaled_channel_range).
  pose proof (select_coefficients_range (device_type i) (ratio l)) as [Bb Bm].
  rewrite <- Hbm in Bb, Bm. cbn [fst snd] in Bb, Bm.
  rewrite Hs, channel_scale_values, spec_scale_cases.
  unfold fits_u32; cbn [fst snd].
  split; [nia |]. split; [nia |].
  split; [| split].
  - intros [Hg | [Ht0 Ht1]].
    + apply Z.eqb_neq in Hg. rewrite Hg.
      destruct (integration_time i =? TSL2561_INTEGRATION_TIME_13MS);
        [| destruct (integration_time i =? TSL2561_INTEGRATION_TIME_101MS)]; lia.
    + apply Z.eqb_neq in Ht0, Ht1. rewrite Ht0, Ht1.
      destruct (gain i =? TSL2561_GAIN_1X); lia.
  - intros Hg Ht. rewrite Hg, Ht. cbn. lia.
  - intros Hg Ht. rewrite Hg, Ht. cbn. lia.
Qed.

Lemma multiply_steps_bounds_witness :
  exists l,
    compute_lux_body Sample.ready 1000 100 = Some l /\
    Forall fits_u32 (multiply_steps 1000 100 l).
Proof.
  destruct (multiply_steps_bounds Sample.ready 1000 100 eq_refl
              ltac:(lia) ltac:(lia)) as (l & Hl & H0 & H1 & Hs & _).
  exists l. split; [exact Hl |].
  destruct Hs as [Ha Hb].
  - right. split; discriminate.
  - unfold multiply_steps.
    repeat (apply Forall_cons; [assumption |]). apply Forall_nil.
Defined.

End EstimatorConfiguration.

(** ** The device session *)

(** Runs the driver code of a goal symbolically: the monad is unfolded and
    every transport answer and every test is split, innermost first. *)
Ltac simplify_fields :=
  cbn [session transport events fst snd init powered smbus_info device_type
       integration_time gain set_powered set_init set_smbus_info set_device_type
       set_integration_time set_gain andb negb] in *.

Ltac is_atomic x :=
  lazymatch x with
  | context [match _ with (_, _) => _ end] => fail
  | context [if _ then _ else _] => fail
  | _ => idtac
  end.

Ltac run_step :=
  match goal with
  | |- context [match ?x with (_, _) => _ end] =>
      is_atomic x; destruct x eqn:?
  | |- context [if ?c then _ else _] =>
      is_atomic c; destruct c eqn:?
  end.

Ltac unfold_driver :=
  cbv [tsl2561_read tsl2561_set_integration_time_and_gain tsl2561_init
       tsl2561_device_id _set_integration_time_and_gain _power_up _power_down
       is_init _is_init load deref modify record on_transport write_byte
       read_byte read_word vTaskDelay bind ret];
  change (u8 TSL2561_CONTROL_POWER_UP) with TSL2561_CONTROL_POWER_UP in *;
  change (u8 TSL2561_CONTROL_POWER_DOWN) with TSL2561_CONTROL_POWER_DOWN in *;
  simplify_fields.

Ltac run_driver :=
  unfold_driver; repeat (run_step; simplify_fields).

Ltac resolve_answers :=
  repeat (match goal with
          | H : @smbus_write_byte _ _ ?a ?b ?c ?d = _
            |- context [@smbus_write_byte _ _ ?a ?b ?c ?d] => rewrite H
          | H : @smbus_write_byte _ _ ?a ?b ?c ?d = _,
            H' : context [@smbus_write_byte _ _ ?a ?b ?c ?d] |- _ => rewrite H in H'
          end;
          simplify_fields).

Ltac close_run :=
  repeat match goal with
         | H : (_, _) = (_, _) |- _ => inversion H; clear H
         | H : negb _ = true |- _ => apply negb_true_iff in H
         | H : negb _ = false |- _ => apply negb_false_iff in H
         | H : (?e =? ESP_OK) = true |- _ => apply Z.eqb_eq in H
         | H : (?e =? ESP_OK) = false |- _ => apply Z.eqb_neq in H
         end;
  simplify_fields; subst;
  try reflexivity; try congruence; try discriminate; try contradiction.

Section SessionFacts.

Context {bus : Type} {smbus : SMBus bus}.

Lemma power_up_run (s : state bus) :
  _power_up SESSION s =
  if powered (session s) then (ESP_OK, s)
  else
    let r := smbus_write_byte (smbus_info (session s)) 0x80 0x03 (transport s) in
    (fst r,
     mk_state (if fst r =? ESP_OK then set_powered (session s) true else session s)
       (snd r) (events s ++ [WriteByte (smbus_info (session s)) 0x80 0x03])).
Proof.
  destruct s as [i t ev]. run_driver; try reflexivity.
  all: change TSL2561_CONTROL_POWER_UP with 3 in *;
    change (Z.lor REG_CONTROL SMB_COMMAND) with 128 in *;
    resolve_answers; close_run.
Qed.

Lemma power_down_run (s : state bus) :
  _power_down SESSION s =
  if powered (session s) then
    let r := smbus_write_byte (smbus_info (session s)) 0x80 0x00 (transport s) in
    (fst r,
     mk_state (if fst r =? ESP_OK then set_powered (session s) false else session s)
       (snd r) (events s ++ [WriteByte (smbus_info (session s)) 0x80 0x00]))
  else (ESP_OK, s).
Proof.
  destruct s as [i t ev]. run_driver; try reflexivity.
  all: change TSL2561_CONTROL_POWER_DOWN with 0 in *;
    change (Z.lor REG_CONTROL SMB_COMMAND) with 128 in *;
    resolve_answers; close_run.
Qed.

End SessionFacts.

Section SessionClaims.

Context {bus : Type} {smbus : SMBus bus}.

Lemma read_ok_powers_down (tick : Z) (p : pointer) (visible infrared : bool)
    (s : state bus) :
  fst (fst (tsl2561_read tick p visible infrared s)) = ESP_OK ->
  powered (session (snd (tsl2561_read tick p visible infrared s))) = false /\
  exists before,
    events (snd (tsl2561_read tick p visible infrared s)) =
    before ++ [WriteByte (smbus_info (session s))
                 (Z.lor REG_CONTROL SMB_COMMAND) TSL2561_CONTROL_POWER_DOWN].
Proof.
  destruct s as [i t ev].
  destruct p; run_driver; intros H; close_run; split; try reflexivity;
    eexists; reflexivity.
Qed.

Lemma configure_ok_powers_down (p : pointer) (integration_time gain : Z)
    (s : state bus) :
  fst (tsl2561_set_integration_time_and_gain p integration_time gain s) = ESP_OK ->
  powered (session
             (snd (tsl2561_set_integration_time_and_gain p integration_time gain s)))
  = false /\
  exists before,
    events (snd (tsl2561_set_integration_time_and_gain p integration_time gain s)) =
    before ++ [WriteByte (smbus_info (session s))
                 (Z.lor REG_CONTROL SMB_COMMAND) TSL2561_CONTROL_POWER_DOWN].
Proof.
  destruct s as [i t ev].
  destruct p; run_driver; intros H; close_run; split; try reflexivity;
    eexists; reflexivity.
Qed.

(** C8: whenever [tsl2561_read] returns [ESP_OK] the session's [powered]
    flag is false afterwards and the last transaction was the power-down
    write; the same holds of [tsl2561_set_integration_time_and_gain]; hence a
    configuration followed by a successful read leaves the device powered
    down. *)
Theorem power_symmetry (tick : Z) (p : pointer) (integration_time gain : Z)
    (visible infrared : bool) (s : state bus) :
  let power_down_write :=
    WriteByte (smbus_info (session s)) (Z.lor REG_CONTROL SMB_COMMAND)
      TSL2561_CONTROL_POWER_DOWN in
  let after_read := tsl2561_read tick p visible infrared s in
  let after_configure :=
    tsl2561_set_integration_time_and_gain p integration_time gain s in
  let after_both :=
    tsl2561_read tick p visible infrared (snd after_configure) in
  (fst (fst after_read) = ESP_OK ->
   powered (session (snd after_read)) = false /\
   exists before, events (snd after_read) = before ++ [power_down_write]) /\
  (fst after_configure = ESP_OK ->
   powered (session (snd after_configure)) = false /\
   exists before, events (snd after_configure) = before ++ [power_down_write]) /\
  (fst (fst after_both) = ESP_OK ->
   powered (session (snd after_both)) = false).
Proof.
  intros pd after_read after_configure after_both.
  split; [apply read_ok_powers_down |].
  split; [apply configure_ok_powers_down |].
  intros H. now apply read_ok_powers_down in H.
Qed.

(** C4: in [tsl2561_set_integration_time_and_gain] on an initialised
    session, a failed power-up is returned as it is, with the power-up write
    as the only transaction and the session unchanged; after a successful
    power-up the timing write and then the power-down write are both issued
    whatever the timing write answered, and the result is the power-down
    error when there is one, the timing-write result otherwise. *)
Theorem configure_error_precedence (s : state bus) (integration_time gain : Z)
    (Hinit : init (session s) = true) :
  let h := smbus_info (session s) in
  let up := _power_up SESSION s in
  let r := tsl2561_set_integration_time_and_gain SESSION integration_time gain s in
  (fst up <> ESP_OK ->
   fst r = fst up /\
   events (snd r) =
     events s ++ [WriteByte h (Z.lor REG_CONTROL SMB_COMMAND) TSL2561_CONTROL_POWER_UP] /\
   session (snd r) = session s) /\
  (fst up = ESP_OK ->
   let wr := smbus_write_byte h (Z.lor REG_TIMING SMB_COMMAND)
               (u8 (Z.lor integration_time gain)) (transport (snd up)) in
   let pd := smbus_write_byte h (Z.lor REG_CONTROL SMB_COMMAND)
               TSL2561_CONTROL_POWER_DOWN (snd wr) in
   events (snd r) =
     events (snd up) ++
     [WriteByte h (Z.lor REG_TIMING SMB_COMMAND) (u8 (Z.lor integration_time gain));
      WriteByte h (Z.lor REG_CONTROL SMB_COMMAND) TSL2561_CONTROL_POWER_DOWN] /\
   transport (snd r) = snd pd /\
   fst r = (if fst pd =? ESP_OK then fst wr else fst pd) /\
   (fst wr <> ESP_OK -> fst pd <> ESP_OK -> fst r = fst pd)).
Proof.
  destruct s as [i t ev]. cbn [session] in Hinit.
  cbv zeta.
  run_driver; (split; [intros Hup | intros Hup]); close_run;
    rewrite <- ?app_assoc; cbn [app]; repeat split; resolve_answers;
    try intros Hwr Hpd; close_run.
Qed.

End SessionClaims.

Section Identification.

Context {bus : Type} {smbus : SMBus bus}.

(** Whatever the transport, an identification byte that is read
    successfully and whose package bits are not recognised makes
    [tsl2561_init] return [ESP_OK]; the session is initialised, at the
    defaults, with the invalid device type. *)
Lemma init_unrecognised_package (s : state bus) (h id : Z) (t' : bus) :
  smbus_read_byte h (Z.lor REG_ID SMB_COMMAND) (transport s) = (ESP_OK, id, t') ->
  _check_device_id (Z.land (Z.shiftr (u8 id) 4) 0x0f) = false ->
  tsl2561_init SESSION h s =
  (ESP_OK,
   mk_state
     (mk_info true false h TSL2561_DEVICE_TYPE_INVALID
        DEFAULT_INTEGRATION_TIME DEFAULT_GAIN)
     t' (events s ++ [ReadByte h (Z.lor REG_ID SMB_COMMAND)])).
Proof.
  intros Hread Hid. destruct s as [i t ev]. cbn [transport] in Hread.
  unfold_driver. rewrite Hread.
  change (ESP_OK =? ESP_OK) with true. cbv iota beta. rewrite Hid.
  reflexivity.
Qed.

(** A recognised package is stored in the session. *)
Lemma init_recognised_package (s : state bus) (h id : Z) (t' : bus) :
  smbus_read_byte h (Z.lor REG_ID SMB_COMMAND) (transport s) = (ESP_OK, id, t') ->
  _check_device_id (Z.land (Z.shiftr (u8 id) 4) 0x0f) = true ->
  tsl2561_init SESSION h s =
  (ESP_OK,
   mk_state
     (mk_info true false h (Z.land (Z.shiftr (u8 id) 4) 0x0f)
        DEFAULT_INTEGRATION_TIME DEFAULT_GAIN)
     t' (events s ++ [ReadByte h (Z.lor REG_ID SMB_COMMAND)])).
Proof.
  intros Hread Hid. destruct s as [i t ev]. cbn [transport] in Hread.
  unfold_driver. rewrite Hread.
  change (ESP_OK =? ESP_OK) with true. cbv iota beta. rewrite Hid.
  reflexivity.
Qed.

(** A failed identification exchange is returned as it is. *)
Lemma init_transport_failure (s : state bus) (h id err : Z) (t' : bus) :
  smbus_read_byte h (Z.lor REG_ID SMB_COMMAND) (transport s) = (err, id, t') ->
  err <> ESP_OK ->
  fst (tsl2561_init SESSION h s) = err.
Proof.
  intros Hread Herr. destruct s as [i t ev]. cbn [transport] in Hread.
  unfold_driver. rewrite Hread. apply Z.eqb_neq in Herr.
  repeat (cbv iota beta; rewrite Herr). reflexivity.
Qed.

End Identification.

Section ReadDelay.

Context {bus : Type} {smbus : SMBus bus}.

Lemma read_delay_cases (t : Z) :
  read_delay t = 15 \/ read_delay t = 120 \/ read_delay t = 450.
Proof.
  unfold read_delay.
  destruct (t =? TSL2561_INTEGRATION_TIME_13MS); [now left |].
  destruct (t =? TSL2561_INTEGRATION_TIME_101MS); [now right; left |].
  destruct (t =? TSL2561_INTEGRATION_TIME_402MS); now right; right.
Qed.

(** Neither the decrement nor the increment of the tick count wraps. *)
Lemma delay_ticks_exact (tick delay : Z) :
  0 < tick -> 1 <= delay <= 450 ->
  delay_ticks tick delay = (delay - 1) / tick + 1.
Proof.
  intros Ht Hd. unfold delay_ticks.
  rewrite (u32_small (delay - 1)) by lia.
  assert (0 <= (delay - 1) / tick <= delay - 1).
  { split; [apply Z.div_pos; lia |].
    apply Z.div_le_upper_bound; [lia | nia]. }
  apply u32_small. lia.
Qed.

(** [(delay - 1) / tick + 1] is the least number of ticks that lasts
    [delay] milliseconds. *)
Lemma ticks_ceiling (tick delay : Z) :
  0 < tick -> 1 <= delay ->
  let n := (delay - 1) / tick + 1 in
  (n - 1) * tick < delay <= n * tick.
Proof.
  intros Ht Hd n. subst n.
  pose proof (Z.div_mod (delay - 1) tick ltac:(lia)) as E.
  pose proof (Z.mod_pos_bound (delay - 1) tick Ht) as B.
  nia.
Qed.

(** C7: [tsl2561_read] on an initialised session takes its delay from the
    integration time, 15 ms at 13 ms, 120 ms at 101 ms, 450 ms at 402 ms and
    at any other value; the tick count [(delay - 1) / portTICK_RATE_MS + 1]
    is the ceiling of [delay / portTICK_RATE_MS], so the ticks requested last
    at least [delay] milliseconds; and once the power-up has succeeded that
    count is handed to [vTaskDelay] before channel 0 is read. *)
Theorem read_delay_ticks (tick : Z) (s : state bus)
    (Htick : 0 < tick) (Hinit : init (session s) = true) :
  let t := integration_time (session s) in
  let delay := read_delay t in
  let ticks := delay_ticks tick delay in
  (t = TSL2561_INTEGRATION_TIME_13MS -> delay = 15) /\
  (t = TSL2561_INTEGRATION_TIME_101MS -> delay = 120) /\
  (t = TSL2561_INTEGRATION_TIME_402MS -> delay = 450) /\
  (t <> TSL2561_INTEGRATION_TIME_13MS ->
   t <> TSL2561_INTEGRATION_TIME_101MS ->
   t <> TSL2561_INTEGRATION_TIME_402MS -> delay = 450) /\
  ticks = (delay - 1) / tick + 1 /\
  (ticks - 1) * tick < delay <= ticks * tick /\
  (fst (_power_up SESSION s) = ESP_OK ->
   exists rest,
     events (snd (tsl2561_read tick SESSION true true s)) =
     events (snd (_power_up SESSION s)) ++
     TaskDelay ticks ::
     ReadWord (smbus_info (session s))
       (Z.lor (Z.lor REG_DATA0LOW SMB_COMMAND) SMB_WORD) :: rest).
Proof.
  intros t delay ticks.
  assert (Hd : 1 <= delay <= 450)
    by (subst delay; destruct (read_delay_cases t) as [E | [E | E]]; rewrite E; lia).
  assert (Hticks : ticks = (delay - 1) / tick + 1)
    by (apply delay_ticks_exact; assumption).
  split; [intros E; subst delay; rewrite E; reflexivity |].
  split; [intros E; subst delay; rewrite E; reflexivity |].
  split; [intros E; subst delay; rewrite E; reflexivity |].
  split.
  { intros E0 E1 E2. subst delay. unfold read_delay.
    apply Z.eqb_neq in E0, E1, E2. now rewrite E0, E1, E2. }
  split; [exact Hticks |].
  split; [rewrite Hticks; apply ticks_ceiling; lia |].
  clear Hd Hticks. subst ticks delay t.
  destruct s as [i tr ev]. cbn [session] in Hinit.
  run_driver; intros Hup; close_run;
    eexists; rewrite <- ?app_assoc; cbn [app]; reflexivity.
Qed.

End ReadDelay.

(** ** Witnesses and evaluations on the scripted transport *)

Lemma power_symmetry_witness :
  powered (session (snd (tsl2561_read 10 SESSION true true Sample.all_ok))) = false /\
  powered (session (snd (tsl2561_set_integration_time_and_gain SESSION
                           TSL2561_INTEGRATION_TIME_101MS TSL2561_GAIN_16X
                           Sample.all_ok))) = false /\
  powered (session
             (snd (tsl2561_read 10 SESSION true true
                     (snd (tsl2561_set_integration_time_and_gain SESSION
                             TSL2561_INTEGRATION_TIME_101MS TSL2561_GAIN_16X
                             Sample.all_ok))))) = false.
Proof.
  pose proof (power_symmetry 10 SESSION TSL2561_INTEGRATION_TIME_101MS
                TSL2561_GAIN_16X true true Sample.all_ok) as [Hr [Hc Hb]].
  split; [exact (proj1 (Hr eq_refl)) |].
  split; [exact (proj1 (Hc eq_refl)) | exact (Hb eq_refl)].
Defined.

Lemma configure_error_precedence_witness :
  fst (tsl2561_set_integration_time_and_gain SESSION
         TSL2561_INTEGRATION_TIME_101MS TSL2561_GAIN_16X
         Sample.write_and_power_down_fail) = 4 /\
  fst (tsl2561_set_integration_time_and_gain SESSION
         TSL2561_INTEGRATION_TIME_101MS TSL2561_GAIN_16X
         Sample.power_up_fails) = 9 /\
  events (snd (tsl2561_set_integration_time_and_gain SESSION
                 TSL2561_INTEGRATION_TIME_101MS TSL2561_GAIN_16X
                 Sample.power_up_fails)) = [WriteByte 7 0x80 0x03].
Proof.
  pose proof (configure_error_precedence Sample.write_and_power_down_fail
                TSL2561_INTEGRATION_TIME_101MS TSL2561_GAIN_16X eq_refl)
    as [_ Hboth].
  pose proof (configure_error_precedence Sample.power_up_fails
                TSL2561_INTEGRATION_TIME_101MS TSL2561_GAIN_16X eq_refl)
    as [Hup _].
  split.
  - exact (proj2 (proj2 (proj2 (Hboth eq_refl)))
             ltac:(discriminate) ltac:(discriminate)).
  - assert (Hfail : fst (_power_up SESSION Sample.power_up_fails) <> ESP_OK)
      by discriminate.
    destruct (Hup Hfail) as [He [Hev _]].
    split; [exact He | exact Hev].
Defined.

Lemma read_delay_ticks_witness :
  read_delay TSL2561_INTEGRATION_TIME_402MS = 450 /\
  delay_ticks 10 450 = 45 /\
  exists rest,
    events (snd (tsl2561_read 10 SESSION true true Sample.all_ok)) =
    [WriteByte 7 0x80 0x03; TaskDelay 45; ReadWord 7 0xAC] ++ rest.
Proof.
  pose proof (read_delay_ticks 10 Sample.all_ok ltac:(lia) eq_refl)
    as (_ & _ & H402 & _ & Hticks & _ & Hev).
  split; [exact (H402 eq_refl) |].
  split; [exact Hticks |].
  exact (Hev eq_refl).
Defined.

(** C1, on the code: the identification register answers 0x2A, whose
    package bits 0b0010 are none of the four recognised encodings;
    [tsl2561_init] returns [ESP_OK], with the session marked initialised and
    its [device_type] left at [TSL2561_DEVICE_TYPE_INVALID]. *)
Theorem init_accepts_unknown_package :
  _check_device_id (Z.land (Z.shiftr 0x2A 4) 0x0f) = false /\
  tsl2561_init SESSION 7 Sample.unknown_package =
  (ESP_OK,
   mk_state
     (mk_info true false 7 TSL2561_DEVICE_TYPE_INVALID
        TSL2561_INTEGRATION_TIME_402MS TSL2561_GAIN_1X)
     [] [ReadByte 7 0x8A]).
Proof. split; reflexivity. Qed.

(** ** The estimator: further properties *)

Section EstimatorFurther.
Import Lux LuxSpec LuxFacts.

(** With operands in the ranges the body produces, nothing wraps between
    [temp] and [lux]. *)
Lemma lux_of_channels_exact (c0 c1 b0 m0 : Z) :
  0 <= c0 < 2 ^ 22 -> 0 <= c1 < 2 ^ 22 ->
  0 <= b0 <= 0x0282 -> 0 <= m0 <= 0x03FE ->
  lux_of_channels c0 c1 b0 m0 = (Z.max 0 (c0 * b0 - c1 * m0) + 2 ^ 13) / 2 ^ 14.
Proof.
  intros H0 H1 Hb Hm. unfold lux_of_channels, LUX_SCALE.
  assert (P0 : 0 <= c0 * b0 <= 2692742526) by nia.
  assert (P1 : 0 <= c1 * m0 < 2 ^ 32) by nia.
  rewrite (u32_small (c0 * b0)) by lia.
  rewrite (u32_small (c1 * m0)) by lia.
  rewrite Z.shiftr_div_pow2 by lia.
  change (Z.shiftl 1 (14 - 1)) with (2 ^ 13).
  destruct (c1 * m0 >? c0 * b0) eqn:E.
  - apply Z.gtb_lt in E. rewrite Z.max_l by lia. reflexivity.
  - assert (c1 * m0 <= c0 * b0) by (rewrite Z.gtb_ltb in E; apply Z.ltb_ge in E; lia).
    rewrite Z.max_r by lia.
    rewrite (u32_small (c0 * b0 - c1 * m0)) by lia.
    rewrite u32_small by lia. reflexivity.
Qed.

(** X1: for every session configuration and all inputs, the last stage of
    [tsl2561_compute_lux] never wraps: the result is
    [(max 0 (channel0 * b - channel1 * m) + 2^13) / 2^14], and whatever the
    pointer and the inputs the returned value lies between 0 and 164352. *)
Theorem lux_rounding_exact (p : info_ptr) (i : tsl2561_info_t)
    (visible infrared : Z) :
  (exists l,
      compute_lux_body i visible infrared = Some l /\
      lux l = (Z.max 0 (channel0 l * b l - channel1 l * m l) + 2 ^ 13) / 2 ^ 14 /\
      0 <= lux l <= 164352) /\
  (exists v, tsl2561_compute_lux p visible infrared = Some v /\ 0 <= v <= 164352).
Proof.
  assert (Hbody : forall j, exists l,
             compute_lux_body j visible infrared = Some l /\
             lux l = (Z.max 0 (channel0 l * b l - channel1 l * m l) + 2 ^ 13) / 2 ^ 14 /\
             0 <= lux l <= 164352).
  { intros j.
    destruct (compute_lux_body_defined j visible infrared)
      as (l & Hl & _ & H0 & H1 & _ & _ & Hbm & Hlux).
    exists l. split; [exact Hl |].
    assert (B0 : 0 <= channel0 l < 2 ^ 22)
      by (rewrite H0; apply scaled_channel_range).
    assert (B1 : 0 <= channel1 l < 2 ^ 22)
      by (rewrite H1; apply scaled_channel_range).
    pose proof (select_coefficients_range (device_type j) (ratio l)) as [Bb Bm].
    rewrite <- Hbm in Bb, Bm. cbn [fst snd] in Bb, Bm.
    rewrite Hlux, (lux_of_channels_exact _ _ _ _ B0 B1 Bb Bm).
    split; [reflexivity |].
    assert (0 <= channel0 l * b l <= 2692742526) by nia.
    assert (0 <= channel1 l * m l) by nia.
    split.
    - apply Z.div_pos; lia.
    - apply Z.lt_succ_r. apply Z.div_lt_upper_bound; lia. }
  split; [apply Hbody |].
  unfold tsl2561_compute_lux.
  destruct (_is_init p); [| exists 0; split; [reflexivity | lia]].
  destruct p as [j |]; [| exists 0; split; [reflexivity | lia]].
  destruct (Hbody j) as (l & Hl & _ & Hb).
  exists (lux l). rewrite Hl. split; [reflexivity | exact Hb].
Qed.

(** Up to the seventh threshold the intercept is positive. *)
Lemma select_coefficients_positive (device r : Z) :
  r <= TSL2561_K7T -> 0 < fst (select_coefficients device r).
Proof.
  intros Hr. apply Z.leb_le in Hr.
  unfold select_coefficients, coefficients_case_1, coefficients_default.
  destruct (device =? 1); [| destruct (device =? 0)];
    repeat match goal with
           | |- context [r <=? TSL2561_K7T] => rewrite Hr
           | |- context [r <=? ?y] => destruct (r <=? y); [reflexivity |]
           end; reflexivity.
Qed.

Lemma channel_scale_positive (i : tsl2561_info_t) : 0 < channel_scale i.
Proof.
  rewrite channel_scale_values, spec_scale_cases.
  destruct (gain i =? TSL2561_GAIN_1X),
    (integration_time i =? TSL2561_INTEGRATION_TIME_13MS),
    (integration_time i =? TSL2561_INTEGRATION_TIME_101MS); lia.
Qed.

(** X2: when the inputs are non-negative and the product
    [(visible + infrared) * scale] fits in 32 bits, the scaled channel 1 is
    at most the scaled channel 0, the rounded ratio is at most 512 (the
    fixed-point 1.0), and the branch taken is one of the first seven, whose
    intercept is positive: the all-zero eighth pair is never selected. *)
Theorem ratio_at_most_one (i : tsl2561_info_t) (visible infrared : Z)
    (Hv : 0 <= visible) (Hi : 0 <= infrared)
    (Hfit : (visible + infrared) * channel_scale i < 2 ^ 32) :
  exists l,
    compute_lux_body i visible infrared = Some l /\
    channel1 l <= channel0 l /\
    ratio l <= 512 /\
    0 < b l.
Proof.
  destruct (compute_lux_body_defined i visible infrared)
    as (l & Hl & Hs & H0 & H1 & Hr1 & Hr & Hbm & _).
  exists l. split; [exact Hl |].
  pose proof (channel_scale_positive i) as Hpos. rewrite <- Hs in Hpos, Hfit.
  assert (B0 : 0 <= channel0 l < 2 ^ 22)
    by (rewrite H0; apply scaled_channel_range).
  assert (B1 : 0 <= channel1 l < 2 ^ 22)
    by (rewrite H1; apply scaled_channel_range).
  assert (Hle : channel1 l <= channel0 l).
  { rewrite H0, H1. unfold scaled_channel0, scaled_channel1, CH_SCALE.
    rewrite !Z.shiftr_div_pow2 by lia.
    rewrite !u32_small by nia.
    apply Z.div_le_mono; nia. }
  destruct (ratio_without_wrap _ _ B0 B1) as [Ha Hb].
  rewrite <- Hr1 in Ha, Hb. rewrite <- Hr in Hb.
  assert (Hr1le : 0 <= ratio1 l <= 1024).
  { rewrite Ha. destruct (channel0 l =? 0) eqn:E; [lia |].
    apply Z.eqb_neq in E. split.
    - apply Z.div_pos; lia.
    - apply Z.div_le_upper_bound; lia. }
  assert (Hrle : ratio l <= 512).
  { rewrite Hb. apply Z.lt_succ_r. apply Z.div_lt_upper_bound; lia. }
  split; [exact Hle |]. split; [exact Hrle |].
  change (b l) with (fst (b l, m l)). rewrite Hbm.
  apply select_coefficients_positive. unfold TSL2561_K7T. lia.
Qed.

Lemma ratio_at_most_one_witness :
  exists l,
    compute_lux_body Sample.ready 900 100 = Some l /\
    channel1 l <= channel0 l /\ ratio l <= 512 /\ 0 < b l.
Proof.
  apply (ratio_at_most_one Sample.ready 900 100); [lia | lia | reflexivity].
Defined.

(** X3: at 402 ms (and at any integration time other than 13 ms and
    101 ms) 16-bit inputs are scaled exactly: the channels are the raw counts
    [visible + infrared] and [infrared] when the gain is not 1x, and 16 times
    these when the gain is 1x. *)
Theorem unity_scaling (i : tsl2561_info_t) (visible infrared : Z)
    (H13 : integration_time i <> TSL2561_INTEGRATION_TIME_13MS)
    (H101 : integration_time i <> TSL2561_INTEGRATION_TIME_101MS)
    (Hv : 0 <= visible < 2 ^ 16) (Hi : 0 <= infrared < 2 ^ 16) :
  exists l,
    compute_lux_body i visible infrared = Some l /\
    channel0 l = (if gain i =? TSL2561_GAIN_1X then 16 else 1) * (visible + infrared) /\
    channel1 l = (if gain i =? TSL2561_GAIN_1X then 16 else 1) * infrared.
Proof.
  destruct (compute_lux_body_defined i visible infrared)
    as (l & Hl & Hs & H0 & H1 & _).
  exists l. split; [exact Hl |].
  rewrite H0, H1, Hs, channel_scale_values, spec_scale_cases.
  apply Z.eqb_neq in H13, H101. rewrite H13, H101.
  unfold scaled_channel0, scaled_channel1, CH_SCALE.
  rewrite !Z.shiftr_div_pow2 by lia.
  destruct (gain i =? TSL2561_GAIN_1X).
  - rewrite !u32_small by lia.
    replace ((visible + infrared) * 16384) with (16 * (visible + infrared) * 2 ^ 10) by lia.
    replace (infrared * 16384) with (16 * infrared * 2 ^ 10) by lia.
    rewrite !Z.div_mul by lia. split; reflexivity.
  - rewrite !u32_small by lia.
    change 1024 with (2 ^ 10).
    rewrite !Z.div_mul by lia. split; lia.
Qed.

Lemma unity_scaling_witness :
  exists l,
    compute_lux_body Sample.cs_2561 900 100 = Some l /\
    channel0 l = 1000 /\ channel1 l = 100.
Proof.
  exact (unity_scaling Sample.cs_2561 900 100 ltac:(discriminate)
           ltac:(discriminate) ltac:(lia) ltac:(lia)).
Defined.

(** X4: two initialised sessions with the same integration time and gain
    whose device types both differ from 1 compute the same illuminance: the
    TSL2560CS, both T/FN/CL parts, the invalid sentinel and every other value
    share the coefficients of the default branch, and neither the power flag
    nor the bus handle matters. *)
Theorem default_branch_shared (i j : tsl2561_info_t) (visible infrared : Z)
    (Hi : init i = true) (Hj : init j = true)
    (Ht : integration_time i = integration_time j)
    (Hg : gain i = gain j)
    (Hdi : device_type i <> 1) (Hdj : device_type j <> 1) :
  tsl2561_compute_lux (Some i) visible infrared =
  tsl2561_compute_lux (Some j) visible infrared.
Proof.
  unfold tsl2561_compute_lux, _is_init. rewrite Hi, Hj.
  unfold compute_lux_body, channel_scale, select_coefficients.
  rewrite Ht, Hg.
  apply Z.eqb_neq in Hdi, Hdj. rewrite Hdi, Hdj.
  destruct (device_type i =? 0), (device_type j =? 0); reflexivity.
Qed.

Lemma default_branch_shared_witness :
  tsl2561_compute_lux (Some Sample.cs_2560) 900 100 =
  tsl2561_compute_lux (Some Sample.tfncl_16x) 900 100.
Proof.
  apply default_branch_shared; try reflexivity; discriminate.
Defined.

End EstimatorFurther.

(** ** The device session: further properties *)

Lemma nibbles_of_byte (x : Z) :
  0 <= x < 256 ->
  Z.land (Z.shiftr x 4) 0x0f = x / 16 /\ Z.land x 0x0f = x mod 16.
Proof.
  intros Hx. change 0x0f with (Z.ones 4).
  rewrite !Z.land_ones by lia. rewrite Z.shiftr_div_pow2 by lia.
  change (2 ^ 4) with 16. split; [| reflexivity].
  apply Z.mod_small. split.
  - apply Z.div_pos; lia.
  - apply Z.div_lt_upper_bound; lia.
Qed.

Lemma u8_range (x : Z) : 0 <= u8 x < 256.
Proof. unfold u8. apply Z.mod_pos_bound. lia. Qed.

Lemma u16_range (x : Z) : 0 <= u16 x < 2 ^ 16.
Proof. unfold u16. apply Z.mod_pos_bound. lia. Qed.

(** The 16-bit subtraction of [tsl2561_read]. *)
Lemma u16_difference (ch0 ch1 : Z) :
  0 <= ch0 < 2 ^ 16 -> 0 <= ch1 < 2 ^ 16 ->
  u16 (ch0 - ch1) = ch0 - ch1 + (if ch0 <? ch1 then 2 ^ 16 else 0).
Proof.
  intros H0 H1. unfold u16. destruct (ch0 <? ch1) eqn:E.
  - apply Z.ltb_lt in E.
    rewrite <- (Z_mod_plus_full (ch0 - ch1) 1 (2 ^ 16)).
    rewrite Z.mod_small by lia. lia.
  - apply Z.ltb_ge in E. rewrite Z.mod_small by lia. lia.
Qed.

Lemma check_device_id_true (d : Z) :
  _check_device_id d = true ->
  d = TSL2561_DEVICE_TYPE_TSL2560CS \/ d = TSL2561_DEVICE_TYPE_TSL2561CS \/
  d = TSL2561_DEVICE_TYPE_TSL2560T_FN_CL \/ d = TSL2561_DEVICE_TYPE_TSL2561T_FN_CL.
Proof.
  unfold _check_device_id.
  destruct (d =? TSL2561_DEVICE_TYPE_TSL2560CS) eqn:E0;
    [apply Z.eqb_eq in E0; auto |].
  destruct (d =? TSL2561_DEVICE_TYPE_TSL2561CS) eqn:E1;
    [apply Z.eqb_eq in E1; auto |].
  destruct (d =? TSL2561_DEVICE_TYPE_TSL2560T_FN_CL) eqn:E2;
    [apply Z.eqb_eq in E2; auto |].
  destruct (d =? TSL2561_DEVICE_TYPE_TSL2561T_FN_CL) eqn:E3;
    [apply Z.eqb_eq in E3; auto |].
  discriminate.
Qed.

Section SessionFurther.

Context {bus : Type} {smbus : SMBus bus}.

(** X5: on an initialised session with both out pointers set, a successful
    read of the identification register yields the upper four bits of the
    byte as device type and the lower four as revision, so that
    [16 * device + revision] is the byte read; the exchange is one byte read
    of register 0x0A and leaves the session, its power flag included, as it
    was. *)
Theorem identify_decodes (s : state bus) (id : Z) (t' : bus)
    (Hinit : init (session s) = true)
    (Hread : smbus_read_byte (smbus_info (session s)) (Z.lor REG_ID SMB_COMMAND)
               (transport s) = (ESP_OK, id, t')) :
  let byte := u8 id in
  tsl2561_device_id SESSION true true s =
    (ESP_OK, Some (byte / 16, byte mod 16),
     mk_state (session s) t'
       (events s ++ [ReadByte (smbus_info (session s)) 0x8A])) /\
  16 * (byte / 16) + byte mod 16 = byte /\
  0 <= byte / 16 < 16 /\ 0 <= byte mod 16 < 16.
Proof.
  intros byte. destruct s as [i t ev]. cbn [session transport] in *.
  pose proof (u8_range id) as Hb. fold byte in Hb.
  destruct (nibbles_of_byte byte Hb) as [Hd Hr].
  split.
  - unfold_driver. rewrite Hinit. simplify_fields. rewrite Hread.
    change (ESP_OK =? ESP_OK) with true. cbv iota beta.
    fold byte. rewrite Hd, Hr. reflexivity.
  - split; [symmetry; apply Z.div_mod; lia |].
    split.
    + split; [apply Z.div_pos; lia | apply Z.div_lt_upper_bound; lia].
    + apply Z.mod_pos_bound. lia.
Qed.

(** X6: a NULL session pointer, or a session whose [init] flag is false,
    makes [tsl2561_read], [tsl2561_set_integration_time_and_gain] and
    [tsl2561_device_id] return [ESP_FAIL] without any transaction, any delay
    or any change to the session. *)
Theorem uninitialised_session_rejected (tick : Z) (p : pointer) (s : state bus)
    (integration_time gain : Z) (o1 o2 : bool)
    (H : p = NULL \/ init (session s) = false) :
  tsl2561_read tick p o1 o2 s = (ESP_FAIL, None, s) /\
  tsl2561_set_integration_time_and_gain p integration_time gain s = (ESP_FAIL, s) /\
  tsl2561_device_id p o1 o2 s = (ESP_FAIL, None, s).
Proof.
  destruct s as [i t ev]. cbn [session] in H.
  destruct H as [-> | Hi].
  - repeat split; reflexivity.
  - destruct p; unfold_driver; rewrite ?Hi; repeat split; reflexivity.
Qed.

(** X7: a NULL out pointer makes [tsl2561_read] and [tsl2561_device_id]
    return [ESP_FAIL] before anything is done: no power-up, no transaction,
    no delay, whatever the session. *)
Theorem null_output_rejected (tick : Z) (p : pointer) (s : state bus)
    (o1 o2 : bool) (H : o1 = false \/ o2 = false) :
  tsl2561_read tick p o1 o2 s = (ESP_FAIL, None, s) /\
  tsl2561_device_id p o1 o2 s = (ESP_FAIL, None, s).
Proof.
  destruct s as [i t ev].
  destruct H as [-> | ->]; destruct p; unfold_driver;
    destruct (init i); try destruct o1; try destruct o2;
    repeat split; reflexivity.
Qed.

End SessionFurther.

Lemma identify_decodes_witness :
  tsl2561_device_id SESSION true true Sample.identifies_1a =
  (ESP_OK, Some (TSL2561_DEVICE_TYPE_TSL2561CS, 10),
   mk_state Sample.ready [] [ReadByte 7 0x8A]).
Proof.
  exact (proj1 (identify_decodes Sample.identifies_1a 0x1A [] eq_refl eq_refl)).
Defined.

Lemma uninitialised_session_rejected_witness :
  tsl2561_read 10 SESSION true true (Sample.machine Sample.zeroed []) =
  (ESP_FAIL, None, Sample.machine Sample.zeroed []) /\
  tsl2561_read 10 NULL true true Sample.all_ok = (ESP_FAIL, None, Sample.all_ok).
Proof.
  split.
  - exact (proj1 (uninitialised_session_rejected 10 SESSION
                    (Sample.machine Sample.zeroed []) 0 0 true true
                    (or_intror eq_refl))).
  - exact (proj1 (uninitialised_session_rejected 10 NULL Sample.all_ok 0 0
                    true true (or_introl eq_refl))).
Defined.

Lemma null_output_rejected_witness :
  tsl2561_read 10 SESSION true false Sample.all_ok = (ESP_FAIL, None, Sample.all_ok).
Proof.
  exact (proj1 (null_output_rejected 10 SESSION Sample.all_ok true false
                  (or_intror eq_refl))).
Defined.

(** Runs [tsl2561_read] on an initialised session up to its first word
    read, given the outcome of the power-up. *)
Ltac enter_read Hinit Hup Hs1 :=
  cbv [tsl2561_read is_init bind load ret _is_init deref vTaskDelay read_word
       record on_transport];
  simplify_fields; rewrite Hinit; simplify_fields; rewrite Hup;
  change (ESP_OK =? ESP_OK) with true; simplify_fields;
  rewrite ?Hs1; simplify_fields.

Ltac answer H :=
  rewrite H; change (ESP_OK =? ESP_OK) with true; simplify_fields.

Section ReadPaths.

Context {bus : Type} {smbus : SMBus bus}.

(** The state a successful power-up leaves: powered, with the handle and
    the configuration of before. *)
Lemma power_up_ok (s s1 : state bus) :
  _power_up SESSION s = (ESP_OK, s1) ->
  session s1 = set_powered (session s) true /\
  (powered (session s) = true -> s1 = s) /\
  (powered (session s) = false ->
   smbus_write_byte (smbus_info (session s)) (Z.lor REG_CONTROL SMB_COMMAND)
     TSL2561_CONTROL_POWER_UP (transport s) = (ESP_OK, transport s1) /\
   events s1 =
     events s ++ [WriteByte (smbus_info (session s))
                    (Z.lor REG_CONTROL SMB_COMMAND) TSL2561_CONTROL_POWER_UP]).
Proof.
  rewrite power_up_run. destruct s as [i t ev]. cbn [session transport events].
  destruct (powered i) eqn:P.
  - intros E. inversion E; subst. cbn [session].
    split; [destruct i; cbn in *; now subst |].
    split; [reflexivity | discriminate].
  - cbv zeta.
    change 128 with (Z.lor REG_CONTROL SMB_COMMAND).
    change 3 with TSL2561_CONTROL_POWER_UP.
    destruct (smbus_write_byte (smbus_info i) (Z.lor REG_CONTROL SMB_COMMAND)
                TSL2561_CONTROL_POWER_UP t) as [e tb].
    cbn [fst snd]. intros E. inversion E; subst.
    change (ESP_OK =? ESP_OK) with true. cbn [session transport events].
    split; [reflexivity |]. split; [discriminate |].
    intros _. split; reflexivity.
Qed.

(** X8: the successful path of [tsl2561_read] on an initialised session:
    after the power-up, the delay is requested, channel 0 (command 0xAC) and
    then channel 1 (command 0xAE) are read as words, the power-down is
    written, and the session ends unpowered; the outputs are
    [visible = (ch0 - ch1) mod 2^16] and [infrared = ch1], so
    [visible + infrared] is [ch0] when [ch1 <= ch0] and [ch0 + 2^16]
    otherwise. *)
Theorem read_success_path (tick : Z) (s s1 : state bus) (d0 d1 : Z)
    (t2 t3 t4 : bus)
    (Hinit : init (session s) = true)
    (Hup : _power_up SESSION s = (ESP_OK, s1))
    (H0 : smbus_read_word (smbus_info (session s))
            (Z.lor (Z.lor REG_DATA0LOW SMB_COMMAND) SMB_WORD) (transport s1)
          = (ESP_OK, d0, t2))
    (H1 : smbus_read_word (smbus_info (session s))
            (Z.lor (Z.lor REG_DATA1LOW SMB_COMMAND) SMB_WORD) t2
          = (ESP_OK, d1, t3))
    (Hpd : smbus_write_byte (smbus_info (session s))
             (Z.lor REG_CONTROL SMB_COMMAND) TSL2561_CONTROL_POWER_DOWN t3
           = (ESP_OK, t4)) :
  let h := smbus_info (session s) in
  let ch0 := u16 d0 in
  let ch1 := u16 d1 in
  let visible := u16 (ch0 - ch1) in
  tsl2561_read tick SESSION true true s =
    (ESP_OK, Some (visible, ch1),
     mk_state (set_powered (session s) false) t4
       (events s1 ++
        [TaskDelay (delay_ticks tick (read_delay (integration_time (session s))));
         ReadWord h 0xAC; ReadWord h 0xAE;
         WriteByte h 0x80 TSL2561_CONTROL_POWER_DOWN])) /\
  visible + ch1 = ch0 + (if ch0 <? ch1 then 2 ^ 16 else 0).
Proof.
  intros h ch0 ch1 visible. split.
  - destruct (power_up_ok s s1 Hup) as [Hs1 _].
    enter_read Hinit Hup Hs1. answer H0. answer H1.
    rewrite power_down_run. simplify_fields. cbv zeta.
    change (smbus_write_byte (smbus_info (session s)) 128 0 t3)
      with (smbus_write_byte (smbus_info (session s))
              (Z.lor REG_CONTROL SMB_COMMAND) TSL2561_CONTROL_POWER_DOWN t3).
    answer Hpd.
    rewrite <- !app_assoc. cbn [app].
    destruct (session s); reflexivity.
  - subst visible. rewrite u16_difference by apply u16_range. lia.
Qed.

(** X9: when [tsl2561_read] on an initialised session fails, nothing is
    written through the out pointers; and if the power-up had succeeded the
    session is left with its [powered] flag set (the device is not powered
    down by a failed read). *)
Theorem failed_read_stays_powered (tick : Z) (s : state bus)
    (Hinit : init (session s) = true)
    (Hfail : fst (fst (tsl2561_read tick SESSION true true s)) <> ESP_OK) :
  snd (fst (tsl2561_read tick SESSION true true s)) = None /\
  (fst (_power_up SESSION s) = ESP_OK ->
   powered (session (snd (tsl2561_read tick SESSION true true s))) = true).
Proof.
  destruct s as [i t ev]. cbn [session] in Hinit. revert Hfail.
  run_driver; intros Hfail; (split; [| intros Hup]); close_run.
Qed.

(** X10: when the channel-0 read fails after a successful power-up,
    [tsl2561_read] returns that error at once: channel 1 is not read and no
    power-down is written; when channel 0 is read and the channel-1 read
    fails, that error is returned and no power-down is written either. *)
Theorem read_channel_failure (tick : Z) (s s1 : state bus)
    (Hinit : init (session s) = true)
    (Hup : _power_up SESSION s = (ESP_OK, s1)) :
  let h := smbus_info (session s) in
  let delay := TaskDelay (delay_ticks tick (read_delay (integration_time (session s)))) in
  (forall err d0 t2,
      smbus_read_word h (Z.lor (Z.lor REG_DATA0LOW SMB_COMMAND) SMB_WORD)
        (transport s1) = (err, d0, t2) ->
      err <> ESP_OK ->
      tsl2561_read tick SESSION true true s =
      (err, None,
       mk_state (session s1) t2 (events s1 ++ [delay; ReadWord h 0xAC]))) /\
  (forall err d0 d1 t2 t3,
      smbus_read_word h (Z.lor (Z.lor REG_DATA0LOW SMB_COMMAND) SMB_WORD)
        (transport s1) = (ESP_OK, d0, t2) ->
      smbus_read_word h (Z.lor (Z.lor REG_DATA1LOW SMB_COMMAND) SMB_WORD)
        t2 = (err, d1, t3) ->
      err <> ESP_OK ->
      tsl2561_read tick SESSION true true s =
      (err, None,
       mk_state (session s1) t3
         (events s1 ++ [delay; ReadWord h 0xAC; ReadWord h 0xAE]))).
Proof.
  intros h delay. subst h delay.
  destruct (power_up_ok s s1 Hup) as [Hs1 _].
  split.
  - intros err d0 t2 H0 Herr. apply Z.eqb_neq in Herr.
    enter_read Hinit Hup Hs1. rewrite H0.
    repeat (rewrite Herr; simplify_fields).
    rewrite <- !app_assoc. cbn [app]. reflexivity.
  - intros err d0 d1 t2 t3 H0 H1 Herr. apply Z.eqb_neq in Herr.
    enter_read Hinit Hup Hs1. answer H0. rewrite H1.
    repeat (rewrite Herr; simplify_fields).
    rewrite <- !app_assoc. cbn [app]. reflexivity.
Qed.

End ReadPaths.

Section SessionState.

Context {bus : Type} {smbus : SMBus bus}.

(** What [tsl2561_init] returns and leaves, in terms of the answer to the
    identification read. *)
Lemma init_run (s : state bus) (h : smbus_info_t) :
  let rd := smbus_read_byte h (Z.lor REG_ID SMB_COMMAND) (transport s) in
  let err := fst (fst rd) in
  let package := Z.land (Z.shiftr (u8 (snd (fst rd))) 4) 0x0f in
  tsl2561_init SESSION h s =
    (err,
     mk_state
       (mk_info true false h
          (if (err =? ESP_OK) && _check_device_id package
           then package else TSL2561_DEVICE_TYPE_INVALID)
          TSL2561_INTEGRATION_TIME_402MS TSL2561_GAIN_1X)
       (snd rd) (events s ++ [ReadByte h 0x8A])).
Proof.
  cbv zeta. destruct s as [i t ev]. unfold_driver.
  destruct (smbus_read_byte h (Z.lor REG_ID SMB_COMMAND) t) as [[e id] t'].
  simplify_fields.
  destruct (e =? ESP_OK) eqn:E; simplify_fields.
  - rewrite E. simplify_fields.
    destruct (_check_device_id (Z.land (Z.shiftr (u8 id) 4) 15)) eqn:C;
      simplify_fields.
    + apply Z.eqb_eq in E. subst e. reflexivity.
    + reflexivity.
  - rewrite E. reflexivity.
Qed.

(** X11: [tsl2561_init] on a non-NULL session performs exactly one
    transaction, the byte read of the identification register, and returns
    that read's error code unchanged; whatever the outcome and the previous
    contents, the session is afterwards initialised, unpowered, bound to the
    handle given, at 402 ms and gain 1x, and its device type is the decoded
    package field when the read succeeded with a recognised package and the
    invalid sentinel otherwise.  On a NULL session it returns [ESP_FAIL] and
    does nothing. *)
Theorem init_outcome (s : state bus) (h : smbus_info_t) :
  let rd := smbus_read_byte h (Z.lor REG_ID SMB_COMMAND) (transport s) in
  let err := fst (fst rd) in
  let package := Z.land (Z.shiftr (u8 (snd (fst rd))) 4) 0x0f in
  let device :=
    if (err =? ESP_OK) && _check_device_id package
    then package else TSL2561_DEVICE_TYPE_INVALID in
  tsl2561_init SESSION h s =
    (err,
     mk_state
       (mk_info true false h device
          TSL2561_INTEGRATION_TIME_402MS TSL2561_GAIN_1X)
       (snd rd) (events s ++ [ReadByte h 0x8A])) /\
  In device [TSL2561_DEVICE_TYPE_TSL2560CS; TSL2561_DEVICE_TYPE_TSL2561CS;
             TSL2561_DEVICE_TYPE_TSL2560T_FN_CL; TSL2561_DEVICE_TYPE_TSL2561T_FN_CL;
             TSL2561_DEVICE_TYPE_INVALID] /\
  tsl2561_init NULL h s = (ESP_FAIL, s).
Proof.
  intros rd err package device.
  split; [apply init_run | split; [| reflexivity]].
  subst device. destruct (err =? ESP_OK); cbn [andb].
  - destruct (_check_device_id package) eqn:C.
    + destruct (check_device_id_true _ C) as [-> | [-> | [-> | ->]]];
        cbn; auto 6.
    + cbn; auto 6.
  - cbn; auto 6.
Qed.

(** X12: in [tsl2561_set_integration_time_and_gain] on an initialised
    session whose power-up succeeded, the session's integration time and
    gain become the arguments exactly when the timing write succeeded and
    keep their previous values otherwise, whatever the power-down answers;
    the [init] flag, the handle and the device type never change; hence a
    call that returns [ESP_OK] has recorded both arguments. *)
Theorem configure_records_settings (s : state bus) (new_time new_gain : Z)
    (Hinit : init (session s) = true)
    (Hup : fst (_power_up SESSION s) = ESP_OK) :
  let h := smbus_info (session s) in
  let wr := smbus_write_byte h (Z.lor REG_TIMING SMB_COMMAND)
              (u8 (Z.lor new_time new_gain))
              (transport (snd (_power_up SESSION s))) in
  let r := tsl2561_set_integration_time_and_gain SESSION new_time new_gain s in
  integration_time (session (snd r)) =
    (if fst wr =? ESP_OK then new_time
     else integration_time (session s)) /\
  gain (session (snd r)) =
    (if fst wr =? ESP_OK then new_gain else gain (session s)) /\
  init (session (snd r)) = true /\
  smbus_info (session (snd r)) = h /\
  device_type (session (snd r)) = device_type (session s) /\
  (fst r = ESP_OK ->
   integration_time (session (snd r)) = new_time /\
   gain (session (snd r)) = new_gain).
Proof.
  destruct s as [i t ev]. cbn [session] in Hinit. revert Hup. cbv zeta.
  run_driver; intros Hup; close_run; repeat split; resolve_answers;
    try intros Hok; close_run.
Qed.

(** X13: [tsl2561_read] and [tsl2561_device_id] never change the session's
    [init] flag, handle, device type, integration time or gain, whatever the
    pointer, the out pointers and the transport's answers; the second leaves
    the power flag alone too. *)
Theorem read_preserves_configuration (tick : Z) (p : pointer) (o1 o2 : bool)
    (s : state bus) :
  let after := session (snd (tsl2561_read tick p o1 o2 s)) in
  (init after = init (session s) /\
   smbus_info after = smbus_info (session s) /\
   device_type after = device_type (session s) /\
   integration_time after = integration_time (session s) /\
   gain after = gain (session s)) /\
  session (snd (tsl2561_device_id p o1 o2 s)) = session s.
Proof.
  destruct s as [i t ev]. cbv zeta.
  destruct p; run_driver; repeat split; close_run.
Qed.

(** X14: on an initialised session whose [powered] flag is already set, no
    power-up is written: [tsl2561_read] starts with the delay request and
    [tsl2561_set_integration_time_and_gain] issues exactly the timing write
    followed by the power-down write. *)
Theorem powered_session_skips_power_up (tick : Z) (s : state bus)
    (new_time new_gain : Z)
    (Hinit : init (session s) = true) (Hp : powered (session s) = true) :
  let h := smbus_info (session s) in
  (exists rest,
      events (snd (tsl2561_read tick SESSION true true s)) =
      events s ++
      TaskDelay (delay_ticks tick (read_delay (integration_time (session s))))
      :: ReadWord h 0xAC :: rest) /\
  events (snd (tsl2561_set_integration_time_and_gain SESSION
                 new_time new_gain s)) =
  events s ++
  [WriteByte h 0x81 (u8 (Z.lor new_time new_gain));
   WriteByte h 0x80 TSL2561_CONTROL_POWER_DOWN].
Proof.
  destruct s as [i t ev]. cbn [session] in Hinit, Hp. cbv zeta.
  split.
  - run_driver; close_run; eexists; rewrite <- ?app_assoc; cbn [app]; reflexivity.
  - run_driver; close_run; rewrite <- ?app_assoc; cbn [app]; reflexivity.
Qed.

(** X15: the pointer [tsl2561_malloc] returns, NULL when the allocation
    failed and a cleared record otherwise, is not an initialised session:
    until [tsl2561_init] is called on it, [tsl2561_read],
    [tsl2561_set_integration_time_and_gain] and [tsl2561_device_id] return
    [ESP_FAIL] without touching the bus and [tsl2561_compute_lux] returns 0;
    the same holds of the pointer left in the cell by [tsl2561_free], which
    is NULL, so that freeing twice is harmless. *)
Theorem unusable_before_init_and_after_free (tick : Z) (allocated : bool)
    (s : state bus) (integration_time gain visible infrared : Z)
    (pp : option pointer) :
  let p := fst (tsl2561_malloc allocated s) in
  let s0 := snd (tsl2561_malloc allocated s) in
  (transport s0 = transport s /\ events s0 = events s /\
   tsl2561_read tick p true true s0 = (ESP_FAIL, None, s0) /\
   tsl2561_set_integration_time_and_gain p integration_time gain s0 = (ESP_FAIL, s0) /\
   tsl2561_device_id p true true s0 = (ESP_FAIL, None, s0) /\
   tsl2561_compute_lux (fst (load p s0)) visible infrared = Some 0) /\
  (tsl2561_free (tsl2561_free pp) = tsl2561_free pp /\
   forall q, tsl2561_free pp = Some q ->
     q = NULL /\
     tsl2561_read tick q true true s = (ESP_FAIL, None, s) /\
     tsl2561_set_integration_time_and_gain q integration_time gain s = (ESP_FAIL, s) /\
     tsl2561_device_id q true true s = (ESP_FAIL, None, s)).
Proof.
  destruct s as [i t ev]. cbv zeta. split.
  - destruct allocated; repeat split; reflexivity.
  - split; [destruct pp as [[|] |]; reflexivity |].
    intros q Hq.
    assert (q = NULL) as -> by (destruct pp as [[|] |]; cbn in Hq; congruence).
    repeat split; reflexivity.
Qed.

(** X16: [tsl2561_read] writes to the control register only: whatever
    happens, the transactions it adds contain no write to any other command
    code (in particular none to the timing register), and
    [tsl2561_device_id] adds no write and no delay at all. *)
Theorem read_writes_control_only (tick : Z) (p : pointer) (o1 o2 : bool)
    (s : state bus) :
  (exists added,
      events (snd (tsl2561_read tick p o1 o2 s)) = events s ++ added /\
      Forall (fun e => forall h c d, e = WriteByte h c d ->
                                     c = Z.lor REG_CONTROL SMB_COMMAND) added) /\
  (exists added,
      events (snd (tsl2561_device_id p o1 o2 s)) = events s ++ added /\
      Forall (fun e => exists h, e = ReadByte h (Z.lor REG_ID SMB_COMMAND)) added).
Proof.
  destruct s as [i t ev]. split.
  - destruct p; run_driver;
      first [ exists []; split; [now rewrite app_nil_r | constructor]
            | eexists; split;
              [rewrite <- ?app_assoc; cbn [app]; reflexivity |];
              repeat (apply Forall_cons;
                      [intros h c d E; inversion E; reflexivity |]);
              apply Forall_nil ].
  - destruct p; run_driver;
      first [ exists []; split; [now rewrite app_nil_r | constructor]
            | eexists; split;
              [rewrite <- ?app_assoc; cbn [app]; reflexivity |];
              repeat (apply Forall_cons; [eexists; reflexivity |]);
              apply Forall_nil ].
Qed.

End SessionState.

(** ** Further witnesses on the scripted transport *)

Lemma read_success_path_witness :
  fst (tsl2561_read 10 SESSION true true Sample.all_ok) =
    (ESP_OK, Some (900, 100)) /\
  fst (tsl2561_read 10 SESSION true true Sample.infrared_above) =
    (ESP_OK, Some (64636, 1000)) /\
  64636 + 1000 = 100 + 2 ^ 16.
Proof.
  pose proof (read_success_path 10 Sample.all_ok _ 1000 100 _ _ _
                eq_refl eq_refl eq_refl eq_refl eq_refl) as [Ha _].
  pose proof (read_success_path 10 Sample.infrared_above _ 100 1000 _ _ _
                eq_refl eq_refl eq_refl eq_refl eq_refl) as [Hb Hsum].
  split; [exact (f_equal fst Ha) |].
  split; [exact (f_equal fst Hb) | exact Hsum].
Defined.

Lemma failed_read_stays_powered_witness :
  snd (fst (tsl2561_read 10 SESSION true true Sample.channel0_fails)) = None /\
  powered (session (snd (tsl2561_read 10 SESSION true true Sample.channel0_fails)))
  = true.
Proof.
  assert (Hfail : fst (fst (tsl2561_read 10 SESSION true true Sample.channel0_fails))
                  <> ESP_OK) by discriminate.
  destruct (failed_read_stays_powered 10 Sample.channel0_fails eq_refl Hfail)
    as [Hout Hpow].
  split; [exact Hout | exact (Hpow eq_refl)].
Defined.

Lemma read_channel_failure_witness :
  tsl2561_read 10 SESSION true true Sample.channel0_fails =
  (6, None,
   mk_state Sample.ready_powered []
     [WriteByte 7 0x80 0x03; TaskDelay 45; ReadWord 7 0xAC]).
Proof.
  pose proof (read_channel_failure 10 Sample.channel0_fails _ eq_refl eq_refl)
    as [Hch0 _].
  exact (Hch0 6 0 [] eq_refl ltac:(discriminate)).
Defined.

Lemma configure_records_settings_witness :
  integration_time
    (session (snd (tsl2561_set_integration_time_and_gain SESSION
                     TSL2561_INTEGRATION_TIME_101MS TSL2561_GAIN_16X
                     Sample.all_ok))) = TSL2561_INTEGRATION_TIME_101MS /\
  gain
    (session (snd (tsl2561_set_integration_time_and_gain SESSION
                     TSL2561_INTEGRATION_TIME_101MS TSL2561_GAIN_16X
                     Sample.timing_write_fails))) = TSL2561_GAIN_1X.
Proof.
  pose proof (configure_records_settings Sample.all_ok
                TSL2561_INTEGRATION_TIME_101MS TSL2561_GAIN_16X eq_refl eq_refl)
    as (Ht & _).
  pose proof (configure_records_settings Sample.timing_write_fails
                TSL2561_INTEGRATION_TIME_101MS TSL2561_GAIN_16X eq_refl eq_refl)
    as (_ & Hg & _).
  split; [exact Ht | exact Hg].
Defined.

Lemma powered_session_skips_power_up_witness :
  events (snd (tsl2561_set_integration_time_and_gain SESSION
                 TSL2561_INTEGRATION_TIME_101MS TSL2561_GAIN_16X
                 Sample.powered_all_ok)) =
  [WriteByte 7 0x81 0x11; WriteByte 7 0x80 0x00].
Proof.
  exact (proj2 (powered_session_skips_power_up 10 Sample.powered_all_ok
                  TSL2561_INTEGRATION_TIME_101MS TSL2561_GAIN_16X
                  eq_refl eq_refl)).
Defined.

Lemma unusable_before_init_and_after_free_witness :
  tsl2561_free (Some SESSION) = Some NULL /\
  tsl2561_read 10 NULL true true Sample.all_ok = (ESP_FAIL, None, Sample.all_ok).
Proof.
  destruct (unusable_before_init_and_after_free 10 true Sample.all_ok 0 0 0 0
              (Some SESSION)) as [_ [_ Hfree]].
  destruct (Hfree NULL eq_refl) as [_ [Hread _]].
  split; [reflexivity | exact Hread].
Defined.

Section Composition.

Context {bus : Type} {smbus : SMBus bus}.

(** X17: after a [tsl2561_set_integration_time_and_gain] that returned
    [ESP_OK], the session is still initialised and [tsl2561_compute_lux]
    scales the channels with the constant of the new integration time and
    gain. *)
Theorem configure_then_compute (s : state bus) (new_time new_gain : Z)
    (Hok : fst (tsl2561_set_integration_time_and_gain SESSION new_time new_gain s)
           = ESP_OK) :
  let after :=
    session (snd (tsl2561_set_integration_time_and_gain SESSION new_time new_gain s)) in
  init after = true /\
  Lux.channel_scale after = LuxSpec.spec_scale new_time new_gain.
Proof.
  cbv zeta. rewrite LuxFacts.channel_scale_values.
  destruct s as [i t ev]. revert Hok.
  run_driver; intros Hok; close_run; split; (assumption || reflexivity).
Qed.

(** X18: once [tsl2561_init] has run on a non-NULL session, whatever it
    returned, the session is usable: a following [tsl2561_read] is not
    rejected but begins by writing the power-up command to the handle that
    was given to [tsl2561_init]. *)
Theorem read_after_init (tick : Z) (s : state bus) (h : smbus_info_t) :
  let s1 := snd (tsl2561_init SESSION h s) in
  exists rest,
    events (snd (tsl2561_read tick SESSION true true s1)) =
    events s1 ++
    WriteByte h (Z.lor REG_CONTROL SMB_COMMAND) TSL2561_CONTROL_POWER_UP :: rest.
Proof.
  cbv zeta. rewrite (init_run s h). cbn [snd].
  run_driver; eexists; rewrite <- ?app_assoc; cbn [app]; reflexivity.
Qed.

End Composition.

Lemma configure_then_compute_witness :
  Lux.channel_scale
    (session (snd (tsl2561_set_integration_time_and_gain SESSION
                     TSL2561_INTEGRATION_TIME_101MS TSL2561_GAIN_16X
                     Sample.all_ok))) = 0x0FE7.
Proof.
  exact (proj2 (configure_then_compute Sample.all_ok
                  TSL2561_INTEGRATION_TIME_101MS TSL2561_GAIN_16X eq_refl)).
Defined.
